(** * A shallow embedding of the Nextcloud WebDAV client (nextcloud_api.py)

    The development follows the Python module top to bottom:

    - [PyStr]    the [str] methods the client calls ([startswith], [strip],
                 [rstrip], [split], [join]);
    - [Urllib]   [urllib.parse.quote] and [urllib.parse.unquote];
    - [ET]       the part of [xml.etree.ElementTree] that [list_directory]
                 walks ([find], [findall], [text]);
    - [Requests] responses, [raise_for_status] and the exceptions that travel
                 through the client;
    - [Client]   the class [NextcloudClient] itself.

    Representation of text.  A Python [str] is kept as the byte string of its
    UTF-8 encoding (Rocq's [string], one [ascii] per byte).  All the methods
    used by the client cut a string at the ASCII character '/', which never
    occurs inside a multi-byte sequence, so they act on the encoded form exactly
    as they act on the code points.  [utf8_valid] recognises the byte strings
    that stand for a [str].  (A [str] holding a lone surrogate has no UTF-8
    encoding: [quote] raises [UnicodeEncodeError] for it.  Such a string
    has no representative here.)

    Diagnostics written with [print] carry no behaviour and are left out. *)

From Stdlib Require Import String Ascii List ZArith NArith Bool Lia.
Import ListNotations.

Local Open Scope string_scope.
Local Open Scope list_scope.

(* ================================================================== *)
(** * Python [str] methods *)
(* ================================================================== *)

Module PyStr.

(** [s.startswith(c)] for a one-character argument. *)
Definition startswith (s : string) (c : ascii) : bool :=
  match s with
  | String a _ => Ascii.eqb a c
  | EmptyString => false
  end.

(** [s.endswith(c)] for a one-character argument. *)
Fixpoint endswith (s : string) (c : ascii) : bool :=
  match s with
  | EmptyString => false
  | String a EmptyString => Ascii.eqb a c
  | String _ s' => endswith s' c
  end.

(** [s.lstrip(c)]: every leading occurrence of [c] is removed. *)
Fixpoint lstrip (s : string) (c : ascii) : string :=
  match s with
  | EmptyString => EmptyString
  | String a s' => if Ascii.eqb a c then lstrip s' c else s
  end.

(** [s.rstrip(c)]: every trailing occurrence of [c] is removed. *)
Fixpoint rstrip (s : string) (c : ascii) : string :=
  match s with
  | EmptyString => EmptyString
  | String a s' =>
      match rstrip s' c with
      | EmptyString => if Ascii.eqb a c then EmptyString else String a EmptyString
      | r => String a r
      end
  end.

(** [s.strip(c)] removes [c] at both ends. *)
Definition strip (s : string) (c : ascii) : string :=
  lstrip (rstrip s c) c.

(** [s.split(c)] with an explicit separator: the pieces between the
    occurrences of [c], empty pieces included; the empty string splits
    into one empty piece. *)
Fixpoint split (s : string) (c : ascii) : list string :=
  match s with
  | EmptyString => [EmptyString]
  | String a s' =>
      if Ascii.eqb a c then EmptyString :: split s' c
      else match split s' c with
           | piece :: pieces => String a piece :: pieces
           | [] => [String a EmptyString]
           end
  end.

(** [sep.join(parts)]. *)
Fixpoint join (sep : string) (parts : list string) : string :=
  match parts with
  | [] => EmptyString
  | [p] => p
  | p :: rest => p ++ sep ++ join sep rest
  end.

(** [c in s]. *)
Fixpoint contains (s : string) (c : ascii) : bool :=
  match s with
  | EmptyString => false
  | String a s' => Ascii.eqb a c || contains s' c
  end.

(** [parts[-1]], the last element of a list ([d] when there is none). *)
Definition last_item (parts : list string) (d : string) : string :=
  List.last parts d.

Definition is_empty (s : string) : bool :=
  match s with EmptyString => true | _ => false end.

End PyStr.

(* ================================================================== *)
(** * [urllib.parse]: [quote] and [unquote] *)
(* ================================================================== *)

Module Urllib.
Import PyStr.
Local Open Scope N_scope.

(** The bytes [quote] never escapes ([_ALWAYS_SAFE]). *)
Definition _ALWAYS_SAFE : string :=
  "ABCDEFGHIJKLMNOPQRSTUVWXYZabcdefghijklmnopqrstuvwxyz0123456789_.-~".

Definition hexdigits_upper : string := "0123456789ABCDEF".

(** The [n]-th upper-case hexadecimal digit. *)
Definition hex_digit (n : N) : ascii :=
  match String.get (N.to_nat n) hexdigits_upper with
  | Some d => d
  | None => "0"%char
  end.

(** ['%{:02X}'.format(b)]. *)
Definition percent_escape (b : ascii) : string :=
  let n := N_of_ascii b in
  String "%" (String (hex_digit (n / 16)) (String (hex_digit (n mod 16)) EmptyString)).

(** One byte of [quote_from_bytes]: kept when always safe or listed in
    [safe], escaped otherwise. *)
Definition quoter (safe : string) (b : ascii) : string :=
  if contains _ALWAYS_SAFE b || contains safe b
  then String b EmptyString
  else percent_escape b.

(** [quote(s, safe=safe)]: the UTF-8 bytes of [s], each through [quoter]. *)
Fixpoint quote (s : string) (safe : string) : string :=
  match s with
  | EmptyString => EmptyString
  | String b s' => quoter safe b ++ quote s' safe
  end.

(** Value of a hexadecimal digit of either case ([_hexdig]). *)
Definition hex_value (d : ascii) : option N :=
  let n := N_of_ascii d in
  if (48 <=? n) && (n <=? 57) then Some (n - 48)
  else if (65 <=? n) && (n <=? 70) then Some (n - 55)
  else if (97 <=? n) && (n <=? 102) then Some (n - 87)
  else None.

(** [unquote_to_bytes]: ["%XX"] with two hexadecimal digits becomes the
    byte; a ['%'] that is not followed by two such digits stays. *)
Fixpoint unquote_to_bytes (s : string) : string :=
  match s with
  | EmptyString => EmptyString
  | String c s' =>
      if Ascii.eqb c "%" then
        match s' with
        | String h1 (String h2 s'') =>
            match hex_value h1, hex_value h2 with
            | Some a, Some b =>
                String (ascii_of_N (16 * a + b)) (unquote_to_bytes s'')
            | _, _ => String c (unquote_to_bytes s')
            end
        | _ => String c (unquote_to_bytes s')
        end
      else String c (unquote_to_bytes s')
  end.

(** U+FFFD REPLACEMENT CHARACTER in UTF-8. *)
Definition REPLACEMENT : string :=
  String (ascii_of_N 239) (String (ascii_of_N 191) (String (ascii_of_N 189) EmptyString)).

Definition is_continuation (b : ascii) : bool :=
  let n := N_of_ascii b in (128 <=? n) && (n <? 192).

(** [bytes.decode('utf-8', 'replace')], on the encoded form: well-formed
    sequences are copied; an invalid start byte, or a lead byte with the
    continuation bytes accepted so far, is replaced by U+FFFD and decoding
    resumes at the offending byte; a sequence cut short by the end of the
    input is replaced by one U+FFFD. *)
Fixpoint utf8_replace (s : string) : string :=
  match s with
  | EmptyString => EmptyString
  | String b0 s1 =>
      let n0 := N_of_ascii b0 in
      if n0 <? 128 then String b0 (utf8_replace s1)
      else if n0 <? 194 then REPLACEMENT ++ utf8_replace s1
      else if n0 <? 224 then
        match s1 with
        | EmptyString => REPLACEMENT
        | String b1 s2 =>
            if is_continuation b1
            then String b0 (String b1 (utf8_replace s2))
            else REPLACEMENT ++ utf8_replace s1
        end
      else if n0 <? 240 then
        match s1 with
        | EmptyString => REPLACEMENT
        | String b1 s2 =>
            let n1 := N_of_ascii b1 in
            if negb (is_continuation b1)
               || (if n1 <? 160 then n0 =? 224 else n0 =? 237)
            then REPLACEMENT ++ utf8_replace s1
            else
              match s2 with
              | EmptyString => REPLACEMENT
              | String b2 s3 =>
                  if is_continuation b2
                  then String b0 (String b1 (String b2 (utf8_replace s3)))
                  else REPLACEMENT ++ utf8_replace s2
              end
        end
      else if n0 <? 245 then
        match s1 with
        | EmptyString => REPLACEMENT
        | String b1 s2 =>
            let n1 := N_of_ascii b1 in
            if negb (is_continuation b1)
               || (if n1 <? 144 then n0 =? 240 else n0 =? 244)
            then REPLACEMENT ++ utf8_replace s1
            else
              match s2 with
              | EmptyString => REPLACEMENT
              | String b2 s3 =>
                  if negb (is_continuation b2)
                  then REPLACEMENT ++ utf8_replace s2
                  else
                    match s3 with
                    | EmptyString => REPLACEMENT
                    | String b3 s4 =>
                        if is_continuation b3
                        then String b0 (String b1 (String b2 (String b3
                               (utf8_replace s4))))
                        else REPLACEMENT ++ utf8_replace s3
                    end
              end
        end
      else REPLACEMENT ++ utf8_replace s1
  end.

(** One ASCII run of [unquote]: percent-decoded, then decoded as UTF-8
    with [errors='replace']. *)
Definition decode_run (run : string) : string :=
  utf8_replace (unquote_to_bytes run).

(** [unquote] treats the maximal ASCII runs of its argument one by one and
    copies what lies between them.  [run] is the ASCII run read so far. *)
Fixpoint unquote_runs (run : string) (s : string) : string :=
  match s with
  | EmptyString => decode_run run
  | String c s' =>
      if N_of_ascii c <? 128
      then unquote_runs (run ++ String c EmptyString) s'
      else decode_run run ++ String c (unquote_runs EmptyString s')
  end.

(** [unquote(s)] with the default [encoding='utf-8', errors='replace']. *)
Definition unquote (s : string) : string :=
  unquote_runs EmptyString s.

(** Well-formed UTF-8 (Unicode, table 3-7): the byte strings that are the
    encoding of a [str]. *)
Definition in_range (lo hi : N) (b : ascii) : bool :=
  let n := N_of_ascii b in (lo <=? n) && (n <=? hi).

Fixpoint utf8_valid (s : string) : bool :=
  match s with
  | EmptyString => true
  | String b0 s1 =>
      if in_range 0 127 b0 then utf8_valid s1
      else if in_range 194 223 b0 then
        match s1 with
        | String b1 s2 => in_range 128 191 b1 && utf8_valid s2
        | _ => false
        end
      else if in_range 224 239 b0 then
        match s1 with
        | String b1 (String b2 s3) =>
            (if in_range 224 224 b0 then in_range 160 191 b1
             else if in_range 237 237 b0 then in_range 128 159 b1
             else in_range 128 191 b1)
            && in_range 128 191 b2 && utf8_valid s3
        | _ => false
        end
      else if in_range 240 244 b0 then
        match s1 with
        | String b1 (String b2 (String b3 s4)) =>
            (if in_range 240 240 b0 then in_range 144 191 b1
             else if in_range 244 244 b0 then in_range 128 143 b1
             else in_range 128 191 b1)
            && in_range 128 191 b2 && in_range 128 191 b3 && utf8_valid s4
        | _ => false
        end
      else false
  end.

End Urllib.

(* ================================================================== *)
(** * [xml.etree.ElementTree] *)
(* ================================================================== *)

Module ET.

(** An element: its tag in Clark notation (["{DAV:}href"]), its [text]
    ([None] when the element has no character data before its first child)
    and its children in document order. *)
#[warning="-register-all"]
Inductive Element : Type :=
| Elem (tag : string) (text : option string) (children : list Element).

Definition tag (e : Element) : string :=
  match e with Elem t _ _ => t end.

Definition text (e : Element) : option string :=
  match e with Elem _ t _ => t end.

Definition children (e : Element) : list Element :=
  match e with Elem _ _ c => c end.

(** The path ['d:name'] under the prefix map [{'d': 'DAV:'}]. *)
Definition DAV (name : string) : string := "{DAV:}" ++ name.

(** [e.findall(path)] for a one-step path: the children with that tag. *)
Definition findall (e : Element) (path : string) : list Element :=
  filter (fun child => String.eqb (tag child) path) (children e).

(** [e.find(path)]: the first such child, [None] when there is none. *)
Definition find (e : Element) (path : string) : option Element :=
  List.find (fun child => String.eqb (tag child) path) (children e).

End ET.

(* ================================================================== *)
(** * [requests]: responses, exceptions, sessions *)
(* ================================================================== *)

Module Requests.

(** The body of a response, held as what [ET.fromstring] makes of it.
    [WellFormed root]: the call returns the root element.  [NotWellFormed]:
    the parser reports a syntax error, and the call raises [ParseError].
    [EncodingRejected msg] and [EncodingUnknown msg]: the XML declaration
    names an encoding the parser cannot take, one that is not a single-byte
    text codec ([ValueError], "multi-byte encodings are not supported") or
    one Python has no text codec for ([LookupError], "unknown encoding: ..").
    The encoding is settled when the declaration is read, so a body that
    names such an encoding ends that way whether the rest of it is
    well-formed or not. *)
Inductive Content : Type :=
| WellFormed (root : ET.Element)
| NotWellFormed
| EncodingRejected (msg : string)
| EncodingUnknown (msg : string).

Record Response : Type := {
  status_code : Z;
  content : Content
}.

(** The exceptions that leave the client. [HTTPError] is the one
    [raise_for_status] raises; [ConnectionError] stands for every other
    [RequestException] of the transport; [ParseError] is
    [xml.etree.ElementTree.ParseError]; [ValueError] (with its subclasses)
    and [LookupError] are the built-in ones. *)
Inductive Exception : Type :=
| ValueError (msg : string)
| FileNotFoundError (path : string)
| ConnectionError (msg : string)
| HTTPError (response : Response)
| ParseError
| LookupError (msg : string).

(** [isinstance(e, requests.exceptions.RequestException)]. *)
Definition is_RequestException (e : Exception) : bool :=
  match e with
  | ConnectionError _ | HTTPError _ => true
  | _ => false
  end.

(** A call either returns a value or raises. *)
Inductive result (A : Type) : Type :=
| Return (a : A)
| Raise (e : Exception).
Arguments Return {A} a.
Arguments Raise {A} e.

Definition bind {A B : Type} (m : result A) (k : A -> result B) : result B :=
  match m with
  | Return a => k a
  | Raise e => Raise e
  end.

(** [Response.raise_for_status]: an [HTTPError] for a client or server
    error status, nothing otherwise. *)
Definition raise_for_status (response : Response) : result unit :=
  if ((400 <=? status_code response) && (status_code response <? 600))%Z
  then Raise (HTTPError response)
  else Return tt.

(** [ET.fromstring(response.content)]. *)
Definition fromstring (c : Content) : result ET.Element :=
  match c with
  | WellFormed root => Return root
  | NotWellFormed => Raise ParseError
  | EncodingRejected msg => Raise (ValueError msg)
  | EncodingUnknown msg => Raise (LookupError msg)
  end.

Record Request : Type := {
  method : string;
  url : string;
  headers : list (string * string);
  data : option string;
  auth : string * string
}.

(** A session sends a request and returns the server's response, or raises
    a transport error. *)
Definition Session : Type := Request -> result Response.

End Requests.

Declare Scope py_scope.
Notation "x <- m ;; k" := (Requests.bind m (fun x => k))
  (at level 61, m at next level, right associativity) : py_scope.

(* ================================================================== *)
(** * [class NextcloudClient] *)
(* ================================================================== *)

Module Client.
Import PyStr Urllib ET Requests.
Local Open Scope string_scope.
Local Open Scope py_scope.

Record NextcloudClient : Type := {
  base_url : string;
  username : string;
  basic_auth : string * string;
  dav_base_path : string;
  session : Session
}.

(** [__init__] (lines 29-49), given the session [requests.Session()] hands
    out. *)
Definition __init__ (s : Session) (nextcloud_url username password : string)
  : result NextcloudClient :=
  if is_empty nextcloud_url
  then Raise (ValueError "NEXTCLOUD_URL cannot be empty.")
  else Return {| base_url := rstrip nextcloud_url "/";
                 username := username;
                 basic_auth := (username, password);
                 dav_base_path := "/remote.php/dav/files/" ++ username;
                 session := s |}.

(** The same client talking through another session. *)
Definition with_session (self : NextcloudClient) (s : Session) : NextcloudClient :=
  {| base_url := base_url self;
     username := username self;
     basic_auth := basic_auth self;
     dav_base_path := dav_base_path self;
     session := s |}.

(** [_build_url] (lines 52-70). *)
Definition _build_url (self : NextcloudClient) (remote_path : string) : string :=
  let remote_path :=
    if negb (startswith remote_path "/") then "/" ++ remote_path else remote_path in
  let encoded_path :=
    join "/" (map (fun part => quote part "") (split (strip remote_path "/") "/")) in
  base_url self ++ dav_base_path self ++ "/" ++ encoded_path.

(** [_handle_response] (lines 72-92): for a status that is not listed it
    calls [raise_for_status], and returns when that does not raise. *)
Definition _handle_response (response : Response) (success_codes : list Z)
  : result unit :=
  if negb (existsb (Z.eqb (status_code response)) success_codes)
  then raise_for_status response
  else Return tt.

Section LocalMachine.

(** The local files ([None]: no such file) and [mimetypes.guess_type]. *)
Variable files : string -> option string.
Variable guess_type : string -> option string.

(** [content_type or 'application/octet-stream']. *)
Definition content_type_or_default (content_type : option string) : string :=
  match content_type with
  | Some t => if is_empty t then "application/octet-stream" else t
  | None => "application/octet-stream"
  end.

(** [upload_file] (lines 95-136).  The handler of [RequestException]
    prints and raises the exception again. *)
Definition upload_file (self : NextcloudClient)
           (local_file_path remote_path : string) : result bool :=
  match files local_file_path with
  | None => Raise (FileNotFoundError local_file_path)
  | Some file_data =>
      let url := _build_url self remote_path in
      let content_type := guess_type local_file_path in
      let headers := [("Content-Type", content_type_or_default content_type)] in
      response <- session self {| method := "PUT"; url := url; headers := headers;
                                  data := Some file_data; auth := basic_auth self |} ;;
      _ <- _handle_response response [200; 201; 204]%Z ;;
      Return true
  end.

End LocalMachine.

(** The path [create_directory] builds its URL from (lines 151-155). *)
Definition url_path (remote_path : string) : string :=
  if negb (String.eqb remote_path "/") && negb (endswith remote_path "/")
  then remote_path ++ "/"
  else remote_path.

(** [create_directory] (lines 138-180) returns [True], or falls off its end
    ([None]) when [_handle_response] comes back without raising. *)
Definition create_directory (self : NextcloudClient) (remote_path : string)
  : result (option bool) :=
  let url := _build_url self (url_path remote_path) in
  response <- session self {| method := "MKCOL"; url := url; headers := [];
                              data := None; auth := basic_auth self |} ;;
  if (status_code response =? 201)%Z then Return (Some true)
  else if (status_code response =? 405)%Z then Return (Some true)
  else
    _ <- _handle_response response [201; 405]%Z ;;
    Return None.

(** One entry of a listing: [{'href': .., 'name': .., 'is_dir': ..}]. *)
Record Item : Type := {
  href : string;
  name : string;
  is_dir : bool
}.

(** The href the directory itself has in its own listing (lines 215-221). *)
Definition base_href_path_check (self : NextcloudClient) (remote_path : string)
  : string :=
  let normalized_remote_path := strip remote_path "/" in
  if negb (is_empty normalized_remote_path)
  then dav_base_path self ++ "/" ++ normalized_remote_path
  else dav_base_path self.

(** [unquote(href_element.text)] (lines 233-238): a [TypeError] when the
    element has no text, which the loop catches; [None] stands for it. *)
Definition unquote_text (t : option string) : option string :=
  match t with
  | Some s => Some (unquote s)
  | None => None
  end.

(** [is_dir] (lines 249-255). *)
Definition is_collection (propstat_element : Element) : bool :=
  match find propstat_element (DAV "prop") with
  | Some prop_element =>
      match find prop_element (DAV "resourcetype") with
      | Some resourcetype_element =>
          match find resourcetype_element (DAV "collection") with
          | Some _ => true
          | None => false
          end
      | None => false
      end
  | None => false
  end.

(** The loop over the [d:response] elements (lines 224-257), [items] being
    the list built so far. *)
Fixpoint collect_items (check : string) (responses : list Element)
         (items : list Item) : list Item :=
  match responses with
  | [] => items
  | resp_element :: rest =>
      match find resp_element (DAV "href"), find resp_element (DAV "propstat") with
      | Some href_element, Some propstat_element =>
          match unquote_text (text href_element) with
          | None => collect_items check rest items
          | Some href =>
              if String.eqb (rstrip href "/") check
              then collect_items check rest items
              else
                let name := last_item (split (rstrip href "/") "/") "" in
                let is_dir := is_collection propstat_element in
                collect_items check rest
                  (items ++ [{| href := href; name := name; is_dir := is_dir |}])%list
          end
      | _, _ => collect_items check rest items
      end
  end.

(** [list_directory] (lines 182-273).  Both handlers print and raise the
    exception again; an exception that is neither an [ET.ParseError] nor a
    [RequestException] passes them by. *)
Definition list_directory (self : NextcloudClient) (remote_path : string)
  : result (list Item) :=
  let url := _build_url self remote_path in
  let headers := [("Depth", "1")] in
  response <- session self {| method := "PROPFIND"; url := url; headers := headers;
                              data := None; auth := basic_auth self |} ;;
  if (status_code response =? 404)%Z then Return []
  else
    _ <- _handle_response response [207]%Z ;;
    root <- fromstring (content response) ;;
    Return (collect_items (base_href_path_check self remote_path)
                          (findall root (DAV "response")) []).

(** [delete] (lines 276-308). *)
Definition delete (self : NextcloudClient) (remote_path : string) : result bool :=
  let url := _build_url self remote_path in
  response <- session self {| method := "DELETE"; url := url; headers := [];
                              data := None; auth := basic_auth self |} ;;
  if (status_code response =? 404)%Z then Return false
  else
    _ <- _handle_response response [204]%Z ;;
    Return true.

End Client.

(* ================================================================== *)
(** * Notions the statements below are phrased with *)
(* ================================================================== *)

Module Notions.
Import PyStr Urllib.

(** The non-empty segments of a slash-separated path, in order. *)
Definition nonempty_segments (path : string) : list string :=
  filter (fun seg => negb (is_empty seg)) (split path "/").

(** The final non-empty segment of a path ([""] when it has none). *)
Definition final_nonempty_segment (path : string) : string :=
  List.last (nonempty_segments path) "".

(** Every byte of the string is ASCII. *)
Fixpoint all_ascii (s : string) : bool :=
  match s with
  | EmptyString => true
  | String c s' => (N_of_ascii c <? 128)%N && all_ascii s'
  end.

(** Only unreserved characters and ['%']: nothing in the string is a
    reserved character left as it is. *)
Fixpoint url_safe (s : string) : bool :=
  match s with
  | EmptyString => true
  | String c s' => (contains _ALWAYS_SAFE c || Ascii.eqb c "%") && url_safe s'
  end.

(** [run], a computation over a session, consults the session at the
    request [req] and nowhere else: two sessions that answer [req] alike
    give the same outcome. *)
Definition only_asks {T : Type} (run : Requests.Session -> T) (req : Requests.Request)
  : Prop :=
  forall s1 s2 : Requests.Session, s1 req = s2 req -> run s1 = run s2.

(** [pieces] with the character [a] put in front of its first piece. *)
Definition cons_head (a : ascii) (pieces : list string) : list string :=
  match pieces with
  | piece :: rest => String a piece :: rest
  | [] => [String a ""]
  end.

End Notions.

(* ================================================================== *)
(** * Servers and documents used as concrete inputs *)
(* ================================================================== *)

Module Examples.
Import PyStr Urllib ET Requests Client.
Local Open Scope string_scope.

(** A server that answers every request with the same status and body. *)
Definition answering (status : Z) (body : Content) : Session :=
  fun _ => Return {| status_code := status; content := body |}.

(** A transport that never reaches a server and reports, in its error, the
    method and URL it was asked for. *)
Definition probe : Session :=
  fun req => Raise (ConnectionError (method req ++ " " ++ url req)).

(** The client [NextcloudClient('http://cloud.example/', 'alice', 'secret')]
    over a given session. *)
Definition alice (s : Session) : NextcloudClient :=
  {| base_url := "http://cloud.example";
     username := "alice";
     basic_auth := ("alice", "secret");
     dav_base_path := "/remote.php/dav/files/alice";
     session := s |}.

Definition one_local_file (path : string) : option string :=
  if String.eqb path "report.pdf" then Some "%PDF-1.7" else None.

Definition by_extension (path : string) : option string :=
  if String.eqb path "report.pdf" then Some "application/pdf" else None.

Definition response_element (href_text : option string) (collection : bool)
  : Element :=
  Elem (DAV "response") None
    [ Elem (DAV "href") href_text [];
      Elem (DAV "propstat") None
        [ Elem (DAV "prop") None
            [ Elem (DAV "resourcetype") None
                (if collection then [Elem (DAV "collection") None []] else []) ] ] ].

(** The multi-status body of a listing of [/docs]: the directory itself, a
    file whose name has a space, and a sub-directory. *)
Definition docs_listing : Element :=
  Elem (DAV "multistatus") None
    [ response_element (Some "/remote.php/dav/files/alice/docs/") true;
      response_element (Some "/remote.php/dav/files/alice/docs/annual%20report.pdf") false;
      response_element (Some "/remote.php/dav/files/alice/docs/old/") true ].

(** A multi-status body with one response whose href is the server root:
    [<d:response><d:href>/</d:href><d:propstat>..</d:propstat></d:response>]. *)
Definition root_href_listing : Element :=
  Elem (DAV "multistatus") None [ response_element (Some "/") true ].

(** What [list_directory] makes of [docs_listing] when asked for [/docs]. *)
Definition docs_items : list Item :=
  [ {| href := "/remote.php/dav/files/alice/docs/annual report.pdf";
       name := "annual report.pdf";
       is_dir := false |};
    {| href := "/remote.php/dav/files/alice/docs/old/";
       name := "old";
       is_dir := true |} ].

End Examples.

(* ================================================================== *)
(** * The REST layer (Fastapi_app.py) *)
(* ================================================================== *)

Module FastApi.
Import PyStr Requests.
Local Open Scope string_scope.

(** The JSON bodies the endpoints build: [{"message": .., "success": ..}]
    ([success] is [None] when the client method came back with [None]) and
    [{"remote_path": .., "items": ..}]. *)
Inductive Body : Type :=
| Message (message : string) (success : option bool)
| Listing (remote_path : string) (items : list Client.Item).

(** The exceptions met in an endpoint: an exception of the client, an
    [OSError] of [open] or [os.remove] at a path, or the [HTTPException] the
    upload endpoint raises itself. *)
Inductive Caught : Type :=
| ClientException (e : Exception)
| OSError (path : string)
| RaisedHTTPException (status : Z) (detail : string).

(** How an endpoint ends: it returns a body with its status (a returned
    dict is served with 200, [JSONResponse] carries its own), it raises an
    [HTTPException], or another exception leaves it, which the framework
    answers with 500 Internal Server Error. *)
Inductive Reply : Type :=
| Json (status : Z) (body : Body)
| HTTPException (status : Z) (detail : string)
| Unhandled (e : Caught).

Definition reply_status (r : Reply) : Z :=
  match r with
  | Json status _ => status
  | HTTPException status _ => status
  | Unhandled _ => 500
  end.

(** The outcome of a [try] body. *)
Inductive Attempt : Type :=
| Returned (r : Reply)
| Raised (e : Caught).

(** What can be read at each path: the contents of the regular file the
    path leads to, [None] where there is none. *)
Definition Files : Type := string -> option string.

(** [open(path, 'wb').write(contents)], when [open] succeeds: what can be
    read afterwards.  The endpoint looks at the path written only. *)
Definition write (fs : Files) (path contents : string) : Files :=
  fun q => if String.eqb q path then Some contents else fs q.

(** What the [finally] clause did about the temporary path. *)
Inductive Cleanup : Type :=
| NothingToRemove
| Removed
| RemoveRaised.

Section Endpoints.

(** The module-level client, [mimetypes.guess_type], [str(e)], and the
    local machine: the paths at which [open(path, 'wb')] raises (a
    directory, a missing parent, no permission), the paths at which
    something other than a regular file is found (a directory), and the
    paths at which [os.remove] raises (a directory, an entry of a directory
    that may not be written). *)
Variable nc_client : Client.NextcloudClient.
Variable guess_type : string -> option string.
Variable str : Caught -> string.
Variable open_fails : string -> bool.
Variable other_entry : string -> bool.
Variable remove_fails : string -> bool.

(** [os.path.exists(path)]: true for a regular file and for anything else
    the path leads to. *)
Definition exists_ (fs : Files) (path : string) : bool :=
  other_entry path || match fs path with Some _ => true | None => false end.

(** [os.remove(path)]: the exception it raises, if it does. *)
Definition remove (path : string) : option Caught :=
  if remove_fails path then Some (OSError path) else None.

(** [except Exception as e: raise HTTPException(status_code=500,
    detail=str(e))]. *)
Definition or_500 (a : Attempt) : Reply :=
  match a with
  | Returned r => r
  | Raised e => HTTPException 500 (str e)
  end.

(** [POST /create-directory] (lines 48-54). *)
Definition create_directory (remote_path : string) : Reply :=
  or_500
    match Client.create_directory nc_client remote_path with
    | Return success =>
        Returned (Json 200
          (Message ("Directory '" ++ remote_path ++ "' created or already exists.")
                   success))
    | Raise e => Raised (ClientException e)
    end.

(** The [try] body of [POST /upload-file] (lines 72-83), with the files it
    leaves. *)
Definition upload_file_try (fs : Files) (remote_path temp_file_path contents : string)
  : Attempt * Files :=
  if open_fails temp_file_path then (Raised (OSError temp_file_path), fs)
  else
    let fs := write fs temp_file_path contents in
    match Client.upload_file fs guess_type nc_client temp_file_path remote_path with
    | Return true =>
        (Returned (Json 200 (Message ("File uploaded to " ++ remote_path) (Some true))),
         fs)
    | Return false => (Raised (RaisedHTTPException 500 "File upload failed."), fs)
    | Raise e => (Raised (ClientException e), fs)
    end.

(** [POST /upload-file] (lines 60-89): the upload named [filename] with the
    bytes [contents].  The [finally] clause removes what it finds at the
    temporary path; when [os.remove] raises there, its exception takes the
    place of the reply. *)
Definition upload_file (fs : Files) (remote_path filename contents : string)
  : Reply * Cleanup :=
  let temp_file_path := "temp_" ++ filename in
  let (attempt, fs) := upload_file_try fs remote_path temp_file_path contents in
  let reply := or_500 attempt in
  if exists_ fs temp_file_path
  then match remove temp_file_path with
       | Some e => (Unhandled e, RemoveRaised)
       | None => (reply, Removed)
       end
  else (reply, NothingToRemove).

(** [GET /list-directory] (lines 95-106). *)
Definition list_directory (remote_path : string) : Reply :=
  or_500
    match Client.list_directory nc_client remote_path with
    | Return items => Returned (Json 200 (Listing remote_path items))
    | Raise e => Raised (ClientException e)
    end.

(** [DELETE /delete] (lines 112-126). *)
Definition delete_resource (remote_path : string) : Reply :=
  or_500
    match Client.delete nc_client remote_path with
    | Return true =>
        Returned (Json 200
          (Message ("Resource at '" ++ remote_path ++ "' deleted.") (Some true)))
    | Return false =>
        Returned (Json 404
          (Message ("Resource '" ++ remote_path ++ "' not found.") (Some false)))
    | Raise e => Raised (ClientException e)
    end.

End Endpoints.

End FastApi.

(* ================================================================== *)
(** * Further notions and inputs *)
(* ================================================================== *)

Module Shapes.
Import PyStr Urllib Requests Client.
Local Open Scope string_scope.

(** The status is a client or server error, the range for which
    [raise_for_status] raises. *)
Definition is_error_status (status : Z) : bool :=
  ((400 <=? status) && (status <? 600))%Z.

(** Letters, digits, [_.-~] and slashes only: a path [quote] has nothing to
    escape in. *)
Fixpoint plain_path (s : string) : bool :=
  match s with
  | EmptyString => true
  | String c s' => (contains _ALWAYS_SAFE c || Ascii.eqb c "/") && plain_path s'
  end.


(** A [d:response] element with the given href text and the given content
    of its [d:propstat]. *)
Definition response_with (href_text : string) (propstat : list ET.Element)
  : ET.Element :=
  ET.Elem (ET.DAV "response") None
    [ ET.Elem (ET.DAV "href") (Some href_text) [];
      ET.Elem (ET.DAV "propstat") None propstat ].

(** A response element the loop passes over: it has no [d:href], or no
    [d:propstat], or its [d:href] has no text. *)
Definition passed_over (resp_element : ET.Element) : Prop :=
  ET.find resp_element (ET.DAV "href") = None
  \/ ET.find resp_element (ET.DAV "propstat") = None
  \/ exists href_element,
      ET.find resp_element (ET.DAV "href") = Some href_element
      /\ ET.text href_element = None.

(** The item [it] was made from the response element [resp_element]: its
    href is the decoded text of the element's [d:href], its name the last
    piece of that href, and [is_dir] is read from the element's
    [d:propstat]. *)
Definition made_from (it : Item) (resp_element : ET.Element) : Prop :=
  exists href_element href_text propstat_element,
    ET.find resp_element (ET.DAV "href") = Some href_element
    /\ ET.text href_element = Some href_text
    /\ ET.find resp_element (ET.DAV "propstat") = Some propstat_element
    /\ href it = unquote href_text
    /\ name it = List.last (split (rstrip (unquote href_text) "/") "/") ""
    /\ is_dir it = is_collection propstat_element.

(** A transport that fails every request with the exception [e]. *)
Definition failing (e : Exception) : Session := fun _ => Raise e.

(** [str(e)] for the examples: the kind of exception. *)
Definition kind_of (e : FastApi.Caught) : string :=
  match e with
  | FastApi.ClientException (HTTPError _) => "HTTPError"
  | FastApi.ClientException ParseError => "ParseError"
  | FastApi.ClientException _ => "Exception"
  | FastApi.OSError _ => "OSError"
  | FastApi.RaisedHTTPException _ _ => "HTTPException"
  end.

Definition no_files : FastApi.Files := fun _ => None.

End Shapes.

(* ================================================================== *)
(** * Facts about the [str] methods *)
(* ================================================================== *)

Module PyStrFacts.
Import PyStr Notions.
Local Open Scope string_scope.

Lemma append_empty_r (s : string) : s ++ "" = s.
Proof. induction s as [|a s IH]; simpl; [reflexivity | now rewrite IH]. Qed.

Lemma append_assoc (s t u : string) : (s ++ t) ++ u = s ++ (t ++ u).
Proof. induction s as [|a s IH]; simpl; [reflexivity | now rewrite IH]. Qed.

Lemma is_empty_false (s : string) : is_empty s = false <-> s <> "".
Proof. destruct s; simpl; split; congruence. Qed.

(** ** [rstrip], [lstrip], [strip] *)

Lemma rstrip_cons_other (c a : ascii) (s : string) :
  Ascii.eqb a c = false -> rstrip (String a s) c = String a (rstrip s c).
Proof.
  intros Hac. simpl. rewrite Hac. now destruct (rstrip s c).
Qed.

Lemma rstrip_cons_sep (c : ascii) (s : string) :
  rstrip (String c s) c =
  match rstrip s c with "" => "" | r => String c r end.
Proof. simpl. now rewrite Ascii.eqb_refl. Qed.

Lemma rstrip_app_sep (c : ascii) (s : string) :
  rstrip (s ++ String c "") c = rstrip s c.
Proof.
  induction s as [|a s IH]; simpl.
  - now rewrite Ascii.eqb_refl.
  - now rewrite IH.
Qed.

Lemma lstrip_cons_sep (c : ascii) (s : string) :
  lstrip (String c s) c = lstrip s c.
Proof. simpl. now rewrite Ascii.eqb_refl. Qed.

Lemma strip_cons_sep (c : ascii) (s : string) :
  strip (String c s) c = strip s c.
Proof.
  unfold strip. rewrite rstrip_cons_sep.
  destruct (rstrip s c); [reflexivity | now rewrite lstrip_cons_sep].
Qed.

Lemma strip_app_sep (c : ascii) (s : string) :
  strip (s ++ String c "") c = strip s c.
Proof. unfold strip. now rewrite rstrip_app_sep. Qed.

(** ** [split] *)

Lemma split_not_nil (c : ascii) (s : string) : split s c <> [].
Proof.
  induction s as [|a s IH]; simpl; [discriminate|].
  destruct (Ascii.eqb a c); [discriminate|].
  destruct (split s c); discriminate.
Qed.

Lemma split_cons_other (c a : ascii) (s : string) :
  Ascii.eqb a c = false -> split (String a s) c = cons_head a (split s c).
Proof. intros Hac. simpl. now rewrite Hac. Qed.

Lemma split_cons_sep (c : ascii) (s : string) :
  split (String c s) c = "" :: split s c.
Proof. simpl. now rewrite Ascii.eqb_refl. Qed.

Lemma split_no_sep (c : ascii) (s : string) :
  contains s c = false -> split s c = [s].
Proof.
  induction s as [|a s IH]; simpl; [reflexivity|].
  intros H. apply orb_false_iff in H as [Hac Hs].
  now rewrite Hac, (IH Hs).
Qed.

Lemma split_app_sep (c : ascii) (s t : string) :
  contains s c = false ->
  split (s ++ String c t) c = s :: split t c.
Proof.
  induction s as [|a s IH]; simpl; intros H.
  - now rewrite Ascii.eqb_refl.
  - apply orb_false_iff in H as [Hac Hs]. now rewrite Hac, (IH Hs).
Qed.

(** Splitting undoes joining when no part contains the separator. *)
Lemma split_join (c : ascii) (parts : list string) :
  parts <> [] ->
  Forall (fun p => contains p c = false) parts ->
  split (join (String c "") parts) c = parts.
Proof.
  induction parts as [|p rest IH]; [congruence|].
  intros _ Hall. inversion Hall as [|? ? Hp Hrest]; subst.
  destruct rest as [|q rest].
  - simpl. now apply split_no_sep.
  - change (join (String c "") (p :: q :: rest))
      with (p ++ String c "" ++ join (String c "") (q :: rest)).
    change (String c "" ++ join (String c "") (q :: rest))
      with (String c (join (String c "") (q :: rest))).
    rewrite split_app_sep by assumption.
    f_equal. apply IH; [discriminate | assumption].
Qed.

(** ** The last piece of a stripped string *)

Lemma last_split_rstrip_nonempty (c : ascii) (s : string) :
  rstrip s c <> "" -> List.last (split (rstrip s c) c) "" <> "".
Proof.
  induction s as [|a s IH]; simpl; [congruence|].
  destruct (rstrip s c) as [|b r] eqn:E.
  - destruct (Ascii.eqb a c) eqn:Hac; [congruence|].
    intros _. simpl. rewrite Hac. simpl. discriminate.
  - intros _. assert (Hr : String b r <> "") by discriminate.
    specialize (IH Hr).
    destruct (Ascii.eqb a c) eqn:Hac.
    + apply Ascii.eqb_eq in Hac; subst a. rewrite split_cons_sep.
      pose proof (split_not_nil c (String b r)) as Hn.
      destruct (split (String b r) c) as [|x xs]; [congruence|]. exact IH.
    + rewrite split_cons_other by assumption.
      pose proof (split_not_nil c (String b r)) as Hn.
      destruct (split (String b r) c) as [|x [|y ys]]; [congruence| |].
      * simpl. discriminate.
      * exact IH.
Qed.

(** The pieces of [s] are those of [s.rstrip(c)] followed by empty pieces,
    one for each separator stripped. *)
Lemma split_rstrip (c : ascii) (s : string) :
  exists k,
    split s c =
    ((if is_empty (rstrip s c) then [] else split (rstrip s c) c)
       ++ repeat "" k)%list
    /\ (is_empty (rstrip s c) = true -> k <> 0).
Proof.
  induction s as [|a s IH].
  - exists 1. simpl. split; [reflexivity | discriminate].
  - destruct IH as [k [Hk Hk0]].
    destruct (Ascii.eqb a c) eqn:Hac.
    + apply Ascii.eqb_eq in Hac; subst a.
      rewrite split_cons_sep, rstrip_cons_sep.
      destruct (rstrip s c) as [|b r] eqn:E.
      * exists (S k). simpl in *. rewrite Hk. split; [reflexivity | discriminate].
      * exists k. simpl is_empty in *. cbv iota in *.
        rewrite split_cons_sep, Hk. split; [reflexivity | discriminate].
    + rewrite split_cons_other, rstrip_cons_other by assumption.
      simpl is_empty. cbv iota.
      rewrite split_cons_other by assumption.
      destruct (rstrip s c) as [|b r] eqn:E.
      * simpl in Hk, Hk0. destruct k as [|k]; [now exfalso; apply Hk0|].
        exists k. rewrite Hk. simpl. split; [reflexivity | discriminate].
      * exists k. simpl is_empty in Hk. cbv iota in Hk. rewrite Hk.
        pose proof (split_not_nil c (String b r)) as Hn.
        destruct (split (String b r) c); [congruence|].
        simpl. split; [reflexivity | discriminate].
Qed.

Lemma filter_nonempty_repeat (k : nat) :
  filter (fun seg => negb (is_empty seg)) (repeat "" k) = [].
Proof. induction k; simpl; auto. Qed.

Lemma last_filter_last {A : Type} (f : A -> bool) (l : list A) (d : A) :
  l <> [] -> f (List.last l d) = true ->
  List.last (filter f l) d = List.last l d.
Proof.
  intros Hl Hf.
  destruct (exists_last Hl) as [l' [z Hz]]. subst l.
  rewrite last_last in *. rewrite filter_app. simpl. rewrite Hf.
  apply last_last.
Qed.

End PyStrFacts.

(* ================================================================== *)
(** * Facts about [quote] and [unquote] *)
(* ================================================================== *)

Module UrllibFacts.
Import PyStr Urllib Notions PyStrFacts.
Local Open Scope string_scope.

(** ** Percent-encoding and percent-decoding *)

Ltac each_byte b :=
  destruct b as [[|] [|] [|] [|] [|] [|] [|] [|]].

(** Decoding what [quoter] wrote for one byte gives the byte back. *)
Lemma unquote_to_bytes_quoter (b : ascii) (rest : string) :
  unquote_to_bytes (quoter "" b ++ rest) = String b (unquote_to_bytes rest).
Proof. each_byte b; reflexivity. Qed.

Lemma unquote_to_bytes_quote (s : string) :
  unquote_to_bytes (quote s "") = s.
Proof.
  induction s as [|b s IH]; simpl; [reflexivity|].
  now rewrite unquote_to_bytes_quoter, IH.
Qed.

Lemma quoter_ascii_no_slash (b : ascii) :
  all_ascii (quoter "" b) = true /\ contains (quoter "" b) "/" = false.
Proof. each_byte b; split; reflexivity. Qed.

Lemma quoter_url_safe (b : ascii) : url_safe (quoter "" b) = true.
Proof. each_byte b; reflexivity. Qed.

Lemma url_safe_app (s t : string) :
  url_safe (s ++ t) = url_safe s && url_safe t.
Proof.
  induction s as [|a s IH]; simpl; [reflexivity|].
  now rewrite IH, andb_assoc.
Qed.

Lemma quote_url_safe (s : string) : url_safe (quote s "") = true.
Proof.
  induction s as [|b s IH]; simpl; [reflexivity|].
  now rewrite url_safe_app, quoter_url_safe, IH.
Qed.

Lemma all_ascii_app (s t : string) :
  all_ascii (s ++ t) = all_ascii s && all_ascii t.
Proof.
  induction s as [|a s IH]; simpl; [reflexivity|].
  now rewrite IH, andb_assoc.
Qed.

Lemma contains_app (s t : string) (c : ascii) :
  contains (s ++ t) c = contains s c || contains t c.
Proof.
  induction s as [|a s IH]; simpl; [reflexivity|].
  now rewrite IH, orb_assoc.
Qed.

Lemma quote_all_ascii (s : string) : all_ascii (quote s "") = true.
Proof.
  induction s as [|b s IH]; simpl; [reflexivity|].
  rewrite all_ascii_app, IH. now destruct (quoter_ascii_no_slash b) as [-> _].
Qed.

Lemma quote_no_slash (s : string) : contains (quote s "") "/" = false.
Proof.
  induction s as [|b s IH]; simpl; [reflexivity|].
  rewrite contains_app, IH. now destruct (quoter_ascii_no_slash b) as [_ ->].
Qed.

(** ** [unquote] on ASCII text *)

Lemma unquote_runs_all_ascii (s run : string) :
  all_ascii s = true -> unquote_runs run s = decode_run (run ++ s).
Proof.
  revert run. induction s as [|c s IH]; simpl; intros run H.
  - now rewrite append_empty_r.
  - apply andb_true_iff in H as [Hc Hs]. rewrite Hc.
    rewrite (IH _ Hs), append_assoc. reflexivity.
Qed.

Lemma unquote_all_ascii (s : string) :
  all_ascii s = true -> unquote s = utf8_replace (unquote_to_bytes s).
Proof. intros H. unfold unquote. now rewrite unquote_runs_all_ascii. Qed.

(** ** Well-formed UTF-8 *)

Local Open Scope N_scope.

Lemma in_range_iff (lo hi : N) (b : ascii) :
  in_range lo hi b = true <-> lo <= N_of_ascii b <= hi.
Proof.
  unfold in_range. rewrite andb_true_iff, !N.leb_le. tauto.
Qed.

Lemma in_range_true (lo hi : N) (b : ascii) :
  lo <= N_of_ascii b <= hi -> in_range lo hi b = true.
Proof. apply in_range_iff. Qed.

Lemma in_range_false (lo hi : N) (b : ascii) :
  N_of_ascii b < lo \/ hi < N_of_ascii b -> in_range lo hi b = false.
Proof.
  intros H. destruct (in_range lo hi b) eqn:E; [|reflexivity].
  apply in_range_iff in E. lia.
Qed.

Ltac decide_ranges :=
  repeat match goal with
  | |- context [in_range ?lo ?hi ?b] =>
      first [ rewrite (in_range_true lo hi b) by lia
            | rewrite (in_range_false lo hi b) by lia ]
  end.

(** The four shapes of an encoded code point. *)
Lemma utf8_valid_1 (b0 : ascii) (s : string) :
  N_of_ascii b0 < 128 ->
  utf8_valid (String b0 s) = utf8_valid s.
Proof. intros H. cbn [utf8_valid]. now decide_ranges. Qed.

Lemma utf8_valid_2 (b0 b1 : ascii) (s : string) :
  194 <= N_of_ascii b0 <= 223 ->
  128 <= N_of_ascii b1 <= 191 ->
  utf8_valid (String b0 (String b1 s)) = utf8_valid s.
Proof. intros H0 H1. cbn [utf8_valid]. now decide_ranges. Qed.

Lemma utf8_valid_3 (b0 b1 b2 : ascii) (s : string) :
  224 <= N_of_ascii b0 <= 239 ->
  128 <= N_of_ascii b1 <= 191 ->
  (N_of_ascii b0 = 224 -> 160 <= N_of_ascii b1) ->
  (N_of_ascii b0 = 237 -> N_of_ascii b1 <= 159) ->
  128 <= N_of_ascii b2 <= 191 ->
  utf8_valid (String b0 (String b1 (String b2 s))) = utf8_valid s.
Proof.
  intros H0 H1 Hlo Hhi H2. cbn [utf8_valid].
  destruct (N.eq_dec (N_of_ascii b0) 224);
    [|destruct (N.eq_dec (N_of_ascii b0) 237)]; now decide_ranges.
Qed.

Lemma utf8_valid_4 (b0 b1 b2 b3 : ascii) (s : string) :
  240 <= N_of_ascii b0 <= 244 ->
  128 <= N_of_ascii b1 <= 191 ->
  (N_of_ascii b0 = 240 -> 144 <= N_of_ascii b1) ->
  (N_of_ascii b0 = 244 -> N_of_ascii b1 <= 143) ->
  128 <= N_of_ascii b2 <= 191 ->
  128 <= N_of_ascii b3 <= 191 ->
  utf8_valid (String b0 (String b1 (String b2 (String b3 s)))) = utf8_valid s.
Proof.
  intros H0 H1 Hlo Hhi H2 H3. cbn [utf8_valid].
  destruct (N.eq_dec (N_of_ascii b0) 240);
    [|destruct (N.eq_dec (N_of_ascii b0) 244)]; now decide_ranges.
Qed.

Ltac split_ranges :=
  repeat match goal with
  | H : _ && _ = true |- _ => apply andb_true_iff in H; destruct H
  | H : in_range _ _ _ = true |- _ => apply in_range_iff in H
  | H : in_range _ _ _ = false |- _ => clear H
  | H : false = true |- _ => discriminate H
  end.

(** Induction along the code points of a well-formed string. *)
Lemma utf8_valid_ind (P : string -> Prop) :
  P "" ->
  (forall b0 s,
      N_of_ascii b0 < 128 ->
      utf8_valid s = true -> P s -> P (String b0 s)) ->
  (forall b0 b1 s,
      194 <= N_of_ascii b0 <= 223 ->
      128 <= N_of_ascii b1 <= 191 ->
      utf8_valid s = true -> P s -> P (String b0 (String b1 s))) ->
  (forall b0 b1 b2 s,
      224 <= N_of_ascii b0 <= 239 ->
      128 <= N_of_ascii b1 <= 191 ->
      (N_of_ascii b0 = 224 -> 160 <= N_of_ascii b1) ->
      (N_of_ascii b0 = 237 -> N_of_ascii b1 <= 159) ->
      128 <= N_of_ascii b2 <= 191 ->
      utf8_valid s = true -> P s -> P (String b0 (String b1 (String b2 s)))) ->
  (forall b0 b1 b2 b3 s,
      240 <= N_of_ascii b0 <= 244 ->
      128 <= N_of_ascii b1 <= 191 ->
      (N_of_ascii b0 = 240 -> 144 <= N_of_ascii b1) ->
      (N_of_ascii b0 = 244 -> N_of_ascii b1 <= 143) ->
      128 <= N_of_ascii b2 <= 191 ->
      128 <= N_of_ascii b3 <= 191 ->
      utf8_valid s = true -> P s ->
      P (String b0 (String b1 (String b2 (String b3 s))))) ->
  forall s, utf8_valid s = true -> P s.
Proof.
  intros Hnil H1 H2 H3 H4.
  assert (Hfuel : forall (n : nat) s,
             (String.length s <= n)%nat -> utf8_valid s = true -> P s).
  { induction n as [|n IH]; intros s Hlen Hv.
    - destruct s; [exact Hnil | simpl in Hlen; lia].
    - destruct s as [|b0 s1]; [exact Hnil|].
      cbn [utf8_valid] in Hv.
      destruct (in_range 0 127 b0) eqn:E0.
      { apply in_range_iff in E0.
        apply H1; [lia | exact Hv | apply IH; [simpl in Hlen; lia | exact Hv]]. }
      destruct (in_range 194 223 b0) eqn:E2.
      { destruct s1 as [|b1 s2]; [discriminate|]. split_ranges.
        apply H2; try assumption. apply IH; [simpl in Hlen; lia | assumption]. }
      destruct (in_range 224 239 b0) eqn:E3.
      { destruct s1 as [|b1 [|b2 s3]]; try discriminate.
        apply andb_true_iff in Hv as [Hv Hs3].
        apply andb_true_iff in Hv as [Hb1 Hb2].
        apply in_range_iff in E3. apply in_range_iff in Hb2.
        assert (Hb1' : 128 <= N_of_ascii b1 <= 191
                       /\ (N_of_ascii b0 = 224 -> 160 <= N_of_ascii b1)
                       /\ (N_of_ascii b0 = 237 -> N_of_ascii b1 <= 159)).
        { destruct (in_range 224 224 b0) eqn:Ea;
            [|destruct (in_range 237 237 b0) eqn:Eb].
          - apply in_range_iff in Ea, Hb1. lia.
          - apply in_range_iff in Eb, Hb1.
            assert (N_of_ascii b0 <> 224)
              by (intros Heq; rewrite in_range_true in Ea by lia; discriminate).
            lia.
          - apply in_range_iff in Hb1.
            assert (N_of_ascii b0 <> 224)
              by (intros Heq; rewrite in_range_true in Ea by lia; discriminate).
            assert (N_of_ascii b0 <> 237)
              by (intros Heq; rewrite in_range_true in Eb by lia; discriminate).
            lia. }
        destruct Hb1' as [? [? ?]].
        apply H3; try assumption. apply IH; [simpl in Hlen; lia | assumption]. }
      destruct (in_range 240 244 b0) eqn:E4; [|discriminate].
      destruct s1 as [|b1 [|b2 [|b3 s4]]]; try discriminate.
      apply andb_true_iff in Hv as [Hv Hs4].
      apply andb_true_iff in Hv as [Hv Hb3].
      apply andb_true_iff in Hv as [Hb1 Hb2].
      apply in_range_iff in E4. apply in_range_iff in Hb2. apply in_range_iff in Hb3.
      assert (Hb1' : 128 <= N_of_ascii b1 <= 191
                     /\ (N_of_ascii b0 = 240 -> 144 <= N_of_ascii b1)
                     /\ (N_of_ascii b0 = 244 -> N_of_ascii b1 <= 143)).
      { destruct (in_range 240 240 b0) eqn:Ea;
          [|destruct (in_range 244 244 b0) eqn:Eb].
        - apply in_range_iff in Ea, Hb1. lia.
        - apply in_range_iff in Eb, Hb1.
          assert (N_of_ascii b0 <> 240)
            by (intros Heq; rewrite in_range_true in Ea by lia; discriminate).
          lia.
        - apply in_range_iff in Hb1.
          assert (N_of_ascii b0 <> 240)
            by (intros Heq; rewrite in_range_true in Ea by lia; discriminate).
          assert (N_of_ascii b0 <> 244)
            by (intros Heq; rewrite in_range_true in Eb by lia; discriminate).
          lia. }
      destruct Hb1' as [? [? ?]].
      apply H4; try assumption. apply IH; [simpl in Hlen; lia | assumption]. }
  intros s. apply (Hfuel (String.length s)). lia.
Qed.

Ltac decide_tests :=
  repeat match goal with
  | |- context [N.ltb ?a ?b] => destruct (N.ltb_spec a b); try lia
  | |- context [N.leb ?a ?b] => destruct (N.leb_spec a b); try lia
  | |- context [N.eqb ?a ?b] => destruct (N.eqb_spec a b); try lia
  end;
  cbn [negb orb andb].

(** Decoding with [errors='replace'] leaves well-formed UTF-8 as it is. *)
Lemma utf8_replace_valid (s : string) :
  utf8_valid s = true -> utf8_replace s = s.
Proof.
  revert s. apply utf8_valid_ind.
  - reflexivity.
  - intros b0 s H0 _ IH. cbn [utf8_replace]. decide_tests. now rewrite IH.
  - intros b0 b1 s H0 H1 _ IH. cbn [utf8_replace]. unfold is_continuation.
    decide_tests. now rewrite IH.
  - intros b0 b1 b2 s H0 H1 Hlo Hhi H2 _ IH.
    cbn [utf8_replace]. unfold is_continuation.
    decide_tests; now rewrite IH.
  - intros b0 b1 b2 b3 s H0 H1 Hlo Hhi H2 H3 _ IH.
    cbn [utf8_replace]. unfold is_continuation.
    decide_tests; now rewrite IH.
Qed.

(** A segment that is well-formed UTF-8 comes back from [unquote] after
    [quote]. *)
Lemma unquote_quote (s : string) :
  utf8_valid s = true -> unquote (quote s "") = s.
Proof.
  intros Hv.
  rewrite unquote_all_ascii by apply quote_all_ascii.
  rewrite unquote_to_bytes_quote. now apply utf8_replace_valid.
Qed.

(** ** Cutting well-formed UTF-8 at an ASCII character *)

Lemma eqb_by_code (a c : ascii) :
  N_of_ascii a <> N_of_ascii c -> Ascii.eqb a c = false.
Proof.
  intros H. apply Ascii.eqb_neq. intros ->. now apply H.
Qed.

Section Cut.

Variable c : ascii.
Hypothesis c_ascii : N_of_ascii c < 128.

Lemma utf8_valid_lstrip (s : string) :
  utf8_valid s = true -> utf8_valid (lstrip s c) = true.
Proof.
  induction s as [|a s IH]; [trivial|].
  intros Hv. simpl. destruct (Ascii.eqb a c) eqn:E; [|exact Hv].
  apply Ascii.eqb_eq in E; subst a.
  rewrite utf8_valid_1 in Hv by exact c_ascii. now apply IH.
Qed.

Lemma utf8_valid_rstrip (s : string) :
  utf8_valid s = true -> utf8_valid (rstrip s c) = true.
Proof.
  revert s. apply utf8_valid_ind.
  - reflexivity.
  - intros b0 s H0 _ IH. destruct (Ascii.eqb b0 c) eqn:E.
    + apply Ascii.eqb_eq in E; subst b0. rewrite rstrip_cons_sep.
      destruct (rstrip s c) eqn:Er; [reflexivity|].
      now rewrite utf8_valid_1.
    + rewrite rstrip_cons_other by assumption. now rewrite utf8_valid_1.
  - intros b0 b1 s H0 H1 _ IH.
    rewrite !rstrip_cons_other by (apply eqb_by_code; lia).
    now rewrite utf8_valid_2.
  - intros b0 b1 b2 s H0 H1 Hlo Hhi H2 _ IH.
    rewrite !rstrip_cons_other by (apply eqb_by_code; lia).
    now rewrite utf8_valid_3.
  - intros b0 b1 b2 b3 s H0 H1 Hlo Hhi H2 H3 _ IH.
    rewrite !rstrip_cons_other by (apply eqb_by_code; lia).
    now rewrite utf8_valid_4.
Qed.

Lemma utf8_valid_strip (s : string) :
  utf8_valid s = true -> utf8_valid (strip s c) = true.
Proof.
  intros Hv. unfold strip. now apply utf8_valid_lstrip, utf8_valid_rstrip.
Qed.

Lemma utf8_valid_split (s : string) :
  utf8_valid s = true -> Forall (fun p => utf8_valid p = true) (split s c).
Proof.
  revert s. apply utf8_valid_ind.
  - repeat constructor.
  - intros b0 s H0 _ IH. destruct (Ascii.eqb b0 c) eqn:E.
    + apply Ascii.eqb_eq in E; subst b0. rewrite split_cons_sep.
      constructor; [reflexivity | exact IH].
    + rewrite split_cons_other by assumption.
      destruct (split s c) as [|x xs]; simpl.
      * repeat constructor. now rewrite utf8_valid_1.
      * inversion IH; subst. constructor; [now rewrite utf8_valid_1 | assumption].
  - intros b0 b1 s H0 H1 _ IH.
    rewrite !split_cons_other by (apply eqb_by_code; lia).
    destruct (split s c) as [|x xs]; simpl.
    + repeat constructor. now rewrite utf8_valid_2.
    + inversion IH; subst. constructor; [now rewrite utf8_valid_2 | assumption].
  - intros b0 b1 b2 s H0 H1 Hlo Hhi H2 _ IH.
    rewrite !split_cons_other by (apply eqb_by_code; lia).
    destruct (split s c) as [|x xs]; simpl.
    + repeat constructor. now rewrite utf8_valid_3.
    + inversion IH; subst. constructor; [now rewrite utf8_valid_3 | assumption].
  - intros b0 b1 b2 b3 s H0 H1 Hlo Hhi H2 H3 _ IH.
    rewrite !split_cons_other by (apply eqb_by_code; lia).
    destruct (split s c) as [|x xs]; simpl.
    + repeat constructor. now rewrite utf8_valid_4.
    + inversion IH; subst. constructor; [now rewrite utf8_valid_4 | assumption].
Qed.

End Cut.

End UrllibFacts.

(* ================================================================== *)
(** * URL construction *)
(* ================================================================== *)

Module ClientFacts.
Import PyStr Urllib ET Requests Client Notions Examples PyStrFacts UrllibFacts.
Local Open Scope string_scope.

(** The slash [_build_url] puts in front of a relative path is stripped
    again before the path is split. *)
Lemma strip_leading_slash_added (remote_path : string) :
  strip (if negb (startswith remote_path "/") then "/" ++ remote_path else remote_path) "/"
  = strip remote_path "/".
Proof.
  destruct (startswith remote_path "/"); simpl; [reflexivity|].
  apply strip_cons_sep.
Qed.

Lemma _build_url_unfold (self : NextcloudClient) (remote_path : string) :
  _build_url self remote_path =
  base_url self ++ dav_base_path self ++ "/" ++
  join "/" (map (fun part => quote part "") (split (strip remote_path "/") "/")).
Proof. unfold _build_url. now rewrite strip_leading_slash_added. Qed.

Lemma _build_url_leading_slash (self : NextcloudClient) (remote_path : string) :
  _build_url self ("/" ++ remote_path) = _build_url self remote_path.
Proof.
  rewrite !_build_url_unfold.
  change ("/" ++ remote_path) with (String "/" remote_path).
  now rewrite strip_cons_sep.
Qed.

Lemma _build_url_trailing_slash (self : NextcloudClient) (remote_path : string) :
  _build_url self (remote_path ++ "/") = _build_url self remote_path.
Proof. rewrite !_build_url_unfold. now rewrite strip_app_sep. Qed.

Lemma _build_url_url_path (self : NextcloudClient) (remote_path : string) :
  _build_url self (url_path remote_path) = _build_url self remote_path.
Proof.
  unfold url_path.
  destruct (negb (remote_path =? "/") && negb (endswith remote_path "/"));
    [apply _build_url_trailing_slash | reflexivity].
Qed.

Lemma _build_url_with_session (self : NextcloudClient) (s : Session) (p : string) :
  _build_url (with_session self s) p = _build_url self p.
Proof. reflexivity. Qed.

(** ** Status codes *)

Lemma _handle_response_listed (response : Response) (success_codes : list Z) :
  existsb (Z.eqb (status_code response)) success_codes = true ->
  _handle_response response success_codes = Return tt.
Proof. intros H. unfold _handle_response. now rewrite H. Qed.

Lemma _handle_response_error (response : Response) (success_codes : list Z) :
  existsb (Z.eqb (status_code response)) success_codes = false ->
  (400 <= status_code response < 600)%Z ->
  _handle_response response success_codes = Raise (HTTPError response).
Proof.
  intros H Hs. unfold _handle_response, raise_for_status. rewrite H. simpl.
  replace (400 <=? status_code response)%Z with true by (symmetry; apply Z.leb_le; lia).
  replace (status_code response <? 600)%Z with true by (symmetry; apply Z.ltb_lt; lia).
  reflexivity.
Qed.

(** A status that is neither listed nor a client or server error goes
    through [_handle_response] without an exception. *)
Lemma _handle_response_other (response : Response) (success_codes : list Z) :
  (status_code response < 400 \/ 600 <= status_code response)%Z ->
  _handle_response response success_codes = Return tt.
Proof.
  intros Hs. unfold _handle_response, raise_for_status.
  destruct (existsb _ success_codes); simpl; [reflexivity|].
  destruct Hs as [Hs|Hs].
  - replace (400 <=? status_code response)%Z with false
      by (symmetry; apply Z.leb_gt; lia). reflexivity.
  - replace (status_code response <? 600)%Z with false
      by (symmetry; apply Z.ltb_ge; lia). now rewrite andb_false_r.
Qed.

(** ** The listing loop *)

Lemma base_href_path_check_leading_slash (self : NextcloudClient) (p : string) :
  base_href_path_check self ("/" ++ p) = base_href_path_check self p.
Proof.
  unfold base_href_path_check.
  change ("/" ++ p) with (String "/" p). now rewrite strip_cons_sep.
Qed.

Lemma base_href_path_check_trailing_slash (self : NextcloudClient) (p : string) :
  base_href_path_check self (p ++ "/") = base_href_path_check self p.
Proof. unfold base_href_path_check. now rewrite strip_app_sep. Qed.

(** What holds of every item the loop can append holds of its result. *)
Lemma collect_items_invariant (P : Item -> Prop) (check : string) :
  (forall href dir,
      rstrip href "/" <> check ->
      P {| href := href;
           name := last_item (split (rstrip href "/") "/") "";
           is_dir := dir |}) ->
  forall responses items,
    Forall P items -> Forall P (collect_items check responses items).
Proof.
  intros Hstep. induction responses as [|resp_element rest IH]; intros items Hitems.
  - exact Hitems.
  - simpl.
    destruct (find resp_element (DAV "href")) as [href_element|]; [|now apply IH].
    destruct (find resp_element (DAV "propstat")) as [propstat_element|];
      [|now apply IH].
    destruct (unquote_text (text href_element)) as [href|]; [|now apply IH].
    destruct (String.eqb (rstrip href "/") check) eqn:E; [now apply IH|].
    apply IH. apply Forall_app. split; [exact Hitems|].
    constructor; [|constructor].
    apply Hstep. now apply String.eqb_neq.
Qed.

(** Every list [list_directory] returns is one the loop built (or empty). *)
Lemma list_directory_returns (P : Item -> Prop)
      (self : NextcloudClient) (remote_path : string) (items : list Item) :
  (forall href dir,
      rstrip href "/" <> base_href_path_check self remote_path ->
      P {| href := href;
           name := last_item (split (rstrip href "/") "/") "";
           is_dir := dir |}) ->
  list_directory self remote_path = Return items ->
  Forall P items.
Proof.
  intros Hstep. unfold list_directory.
  destruct (session self _) as [response|e]; simpl; [|discriminate].
  destruct (status_code response =? 404)%Z.
  - intros [= <-]. constructor.
  - destruct (_handle_response response [207%Z]) as [[]|e]; simpl; [|discriminate].
    destruct (fromstring (content response)) as [root|e]; simpl; [|discriminate].
    intros [= <-]. apply collect_items_invariant; [exact Hstep | constructor].
Qed.

Lemma list_directory_leading_slash (self : NextcloudClient) (p : string) :
  list_directory self ("/" ++ p) = list_directory self p.
Proof.
  unfold list_directory.
  now rewrite _build_url_leading_slash, base_href_path_check_leading_slash.
Qed.

Lemma list_directory_trailing_slash (self : NextcloudClient) (p : string) :
  list_directory self (p ++ "/") = list_directory self p.
Proof.
  unfold list_directory.
  now rewrite _build_url_trailing_slash, base_href_path_check_trailing_slash.
Qed.

(** Only the stripped request path matters to [list_directory]. *)
Lemma list_directory_strip (self : NextcloudClient) (p q : string) :
  strip p "/" = strip q "/" -> list_directory self p = list_directory self q.
Proof.
  intros Heq. unfold list_directory, base_href_path_check.
  now rewrite !_build_url_unfold, Heq.
Qed.

(** ** Names *)

Lemma final_nonempty_segment_rstrip (h : string) :
  rstrip h "/" <> "" ->
  List.last (split (rstrip h "/") "/") "" <> ""
  /\ final_nonempty_segment h = List.last (split (rstrip h "/") "/") ""
  /\ final_nonempty_segment (rstrip h "/") = List.last (split (rstrip h "/") "/") "".
Proof.
  intros Hne.
  pose proof (last_split_rstrip_nonempty "/" h Hne) as Hlast.
  assert (Hkeep : List.last (filter (fun seg => negb (is_empty seg))
                                    (split (rstrip h "/") "/")) ""
                  = List.last (split (rstrip h "/") "/") "").
  { apply last_filter_last; [apply split_not_nil|].
    destruct (List.last (split (rstrip h "/") "/") ""); [congruence | reflexivity]. }
  split; [exact Hlast|]. split; [|exact Hkeep].
  unfold final_nonempty_segment, nonempty_segments.
  destruct (split_rstrip "/" h) as [k [Hk _]]. rewrite Hk.
  apply is_empty_false in Hne. rewrite Hne.
  rewrite filter_app, filter_nonempty_repeat, app_nil_r. exact Hkeep.
Qed.

End ClientFacts.

(* ================================================================== *)
(** * Properties of the client *)
(* ================================================================== *)

Import PyStr Urllib ET Requests Client Notions Examples.
Import PyStrFacts UrllibFacts ClientFacts.
Local Open Scope string_scope.

(** ** URLs *)

(** C2, as the code has it: for the root path ["/"] the URL is the base URL,
    the DAV root and one slash; the joined segment string after that slash
    is empty. *)
Theorem build_url_root (self : NextcloudClient) :
  _build_url self "/" = base_url self ++ dav_base_path self ++ "/".
Proof. reflexivity. Qed.

(** C2, as stated, fails: for the root path the URL is not the base URL
    followed by the DAV root alone, it ends in a slash. *)
Lemma build_url_root_has_trailing_slash :
  _build_url (alice probe) "/" = "http://cloud.example/remote.php/dav/files/alice/"
  /\ _build_url (alice probe) "/"
     <> base_url (alice probe) ++ dav_base_path (alice probe).
Proof. split; [reflexivity | discriminate]. Qed.

(** C4: the URL is the base URL, the DAV root, a slash and the segments of
    the stripped path, each encoded by itself and joined with slashes.  No
    encoded segment contains a slash, so cutting the encoded path at its
    slashes gives back the encoded segments one for one, and decoding each
    of them, with [unquote] or byte-wise, gives the segment it came from;
    an encoded segment holds unreserved characters and ['%'] only. *)
Theorem build_url_segments_round_trip (self : NextcloudClient) (remote_path : string) :
  utf8_valid remote_path = true ->
  let segments := split (strip remote_path "/") "/" in
  let encoded := map (fun part => quote part "") segments in
  _build_url self remote_path
  = base_url self ++ dav_base_path self ++ "/" ++ join "/" encoded
  /\ split (join "/" encoded) "/" = encoded
  /\ map unquote encoded = segments
  /\ map unquote_to_bytes encoded = segments
  /\ Forall (fun e => url_safe e = true) encoded.
Proof.
  intros Hv segments encoded.
  assert (Hsegs : Forall (fun p => utf8_valid p = true) segments).
  { apply utf8_valid_split; [reflexivity|].
    apply utf8_valid_strip; [reflexivity | exact Hv]. }
  split; [apply _build_url_unfold|].
  split.
  { apply split_join.
    - unfold encoded, segments.
      pose proof (split_not_nil "/" (strip remote_path "/")) as Hn.
      destruct (split (strip remote_path "/") "/"); [congruence | discriminate].
    - unfold encoded. apply Forall_map.
      apply Forall_forall. intros seg _. apply quote_no_slash. }
  split; [|split].
  - unfold encoded. rewrite map_map.
    clear encoded. induction Hsegs as [|seg rest Hseg _ IH]; simpl;
      [reflexivity | now rewrite unquote_quote, IH].
  - unfold encoded. rewrite map_map.
    clear. induction segments as [|seg rest IH]; simpl;
      [reflexivity | now rewrite unquote_to_bytes_quote, IH].
  - unfold encoded. apply Forall_map.
    apply Forall_forall. intros seg _. apply quote_url_safe.
Qed.

Lemma build_url_segments_round_trip_witness :
  utf8_valid "/my docs/50%/café.txt" = true
  /\ _build_url (alice probe) "/my docs/50%/café.txt"
     = "http://cloud.example/remote.php/dav/files/alice/my%20docs/50%25/caf%C3%A9.txt"
  /\ map unquote ["my%20docs"; "50%25"; "caf%C3%A9.txt"]
     = ["my docs"; "50%"; "café.txt"].
Proof.
  pose proof (build_url_segments_round_trip (alice probe)
                "/my docs/50%/café.txt" eq_refl) as [Hurl [_ [Hdec _]]].
  split; [reflexivity|]. split; [exact Hurl | exact Hdec].
Defined.

(** C10: a slash more in front of the path or behind it leaves the URL as it
    is, and so does the slash [create_directory] appends; MKCOL, DELETE and
    PUT for one path are sent to one URL, that of [_build_url]: a transport
    that reports what it is asked for reports that URL, and the outcome of
    each method depends on the session through the answer to that one
    request only. *)
Theorem build_url_ignores_outer_slashes (self : NextcloudClient) (remote_path : string) :
  _build_url self (remote_path ++ "/") = _build_url self remote_path
  /\ _build_url self ("/" ++ remote_path) = _build_url self remote_path
  /\ _build_url self (url_path remote_path) = _build_url self remote_path
  /\ create_directory (with_session self probe) remote_path
     = Raise (ConnectionError ("MKCOL " ++ _build_url self remote_path))
  /\ delete (with_session self probe) remote_path
     = Raise (ConnectionError ("DELETE " ++ _build_url self remote_path))
  /\ (forall guess_type file_data local_file_path,
        upload_file (fun _ => Some file_data) guess_type
                    (with_session self probe) local_file_path remote_path
        = Raise (ConnectionError ("PUT " ++ _build_url self remote_path)))
  /\ only_asks (fun s => create_directory (with_session self s) remote_path)
       {| method := "MKCOL"; url := _build_url self remote_path; headers := [];
          data := None; auth := basic_auth self |}
  /\ only_asks (fun s => delete (with_session self s) remote_path)
       {| method := "DELETE"; url := _build_url self remote_path; headers := [];
          data := None; auth := basic_auth self |}
  /\ (forall files guess_type local_file_path file_data,
        files local_file_path = Some file_data ->
        only_asks (fun s => upload_file files guess_type (with_session self s)
                                        local_file_path remote_path)
          {| method := "PUT"; url := _build_url self remote_path;
             headers := [("Content-Type",
                          content_type_or_default (guess_type local_file_path))];
             data := Some file_data; auth := basic_auth self |}).
Proof.
  split; [apply _build_url_trailing_slash|].
  split; [apply _build_url_leading_slash|].
  split; [apply _build_url_url_path|].
  split.
  { unfold create_directory. cbn [session with_session bind probe method url].
    now rewrite _build_url_with_session, _build_url_url_path. }
  split; [reflexivity|].
  split; [reflexivity|].
  split; [|split].
  - intros s1 s2 Heq. unfold create_directory. cbn [session with_session basic_auth].
    rewrite !_build_url_with_session, _build_url_url_path. now rewrite Heq.
  - intros s1 s2 Heq. unfold delete. cbn [session with_session basic_auth].
    rewrite !_build_url_with_session. now rewrite Heq.
  - intros files guess_type local_file_path file_data Hfile s1 s2 Heq.
    unfold upload_file. rewrite Hfile. cbn [session with_session basic_auth].
    rewrite !_build_url_with_session. now rewrite Heq.
Qed.

(** ** Status codes *)

(** What [upload_file] does with the status of the response, for a local
    file that exists. *)
Lemma upload_file_by_status (files guess_type : string -> option string)
      (self : NextcloudClient) (local_file_path remote_path file_data : string)
      (response : Response) :
  files local_file_path = Some file_data ->
  session self {| method := "PUT";
                  url := _build_url self remote_path;
                  headers := [("Content-Type",
                               content_type_or_default (guess_type local_file_path))];
                  data := Some file_data;
                  auth := basic_auth self |} = Return response ->
  upload_file files guess_type self local_file_path remote_path =
  if existsb (Z.eqb (status_code response)) [200; 201; 204]%Z then Return true
  else if ((400 <=? status_code response) && (status_code response <? 600))%Z
       then Raise (HTTPError response)
       else Return true.
Proof.
  intros Hfile Hsend. unfold upload_file. rewrite Hfile, Hsend. simpl bind.
  unfold _handle_response, raise_for_status.
  destruct (existsb _ _); simpl; [reflexivity|].
  now destruct ((400 <=? status_code response) && (status_code response <? 600))%Z.
Qed.

(** What [create_directory] does with the status of the response. *)
Lemma create_directory_by_status (self : NextcloudClient) (remote_path : string)
      (response : Response) :
  session self {| method := "MKCOL";
                  url := _build_url self (url_path remote_path);
                  headers := [];
                  data := None;
                  auth := basic_auth self |} = Return response ->
  create_directory self remote_path =
  if existsb (Z.eqb (status_code response)) [201; 405]%Z then Return (Some true)
  else if ((400 <=? status_code response) && (status_code response <? 600))%Z
       then Raise (HTTPError response)
       else Return None.
Proof.
  intros Hsend. unfold create_directory. rewrite Hsend. simpl bind.
  unfold _handle_response, raise_for_status. simpl existsb.
  destruct (status_code response =? 201)%Z; [reflexivity|].
  destruct (status_code response =? 405)%Z; [reflexivity|]. simpl.
  now destruct ((400 <=? status_code response) && (status_code response <? 600))%Z.
Qed.

(** What [delete] does with the status of the response. *)
Lemma delete_by_status (self : NextcloudClient) (remote_path : string)
      (response : Response) :
  session self {| method := "DELETE";
                  url := _build_url self remote_path;
                  headers := [];
                  data := None;
                  auth := basic_auth self |} = Return response ->
  delete self remote_path =
  if (status_code response =? 404)%Z then Return false
  else if (status_code response =? 204)%Z then Return true
  else if ((400 <=? status_code response) && (status_code response <? 600))%Z
       then Raise (HTTPError response)
       else Return true.
Proof.
  intros Hsend. unfold delete. rewrite Hsend. simpl bind.
  destruct (status_code response =? 404)%Z; [reflexivity|].
  unfold _handle_response, raise_for_status. simpl existsb.
  destruct (status_code response =? 204)%Z; [reflexivity|]. simpl.
  now destruct ((400 <=? status_code response) && (status_code response <? 600))%Z.
Qed.

(** C1, where the code departs from it: [raise_for_status] raises for 4xx and
    5xx only, so a PUT answered 202 or 302 makes [upload_file] return [True],
    and a MKCOL answered 200 or 302 makes [create_directory] come back
    without an exception (and without a value). *)
Theorem upload_and_mkdir_pass_statuses_below_400 :
  upload_file one_local_file by_extension (alice (answering 202 NotWellFormed))
              "report.pdf" "/docs/report.pdf" = Return true
  /\ upload_file one_local_file by_extension (alice (answering 302 NotWellFormed))
                 "report.pdf" "/docs/report.pdf" = Return true
  /\ create_directory (alice (answering 200 NotWellFormed)) "/docs" = Return None
  /\ create_directory (alice (answering 302 NotWellFormed)) "/docs" = Return None.
Proof. repeat split. Qed.

(** C5, where the code departs from it: a DELETE answered 200 makes [delete]
    return [True] instead of raising. *)
Theorem delete_passes_status_200 :
  delete (alice (answering 200 NotWellFormed)) "/docs/report.pdf" = Return true.
Proof. reflexivity. Qed.

(** C6: when the server answers the PROPFIND with 404, [list_directory]
    returns the empty list and raises nothing. *)
Theorem list_directory_not_found (self : NextcloudClient) (remote_path : string)
        (response : Response) :
  session self {| method := "PROPFIND";
                  url := _build_url self remote_path;
                  headers := [("Depth", "1")];
                  data := None;
                  auth := basic_auth self |} = Return response ->
  status_code response = 404%Z ->
  list_directory self remote_path = Return [].
Proof.
  intros Hsend Hst. unfold list_directory. rewrite Hsend. simpl bind.
  now rewrite Hst.
Qed.

Lemma list_directory_not_found_witness :
  list_directory (alice (answering 404 NotWellFormed)) "/no/such/dir" = Return [].
Proof.
  apply (list_directory_not_found (alice (answering 404 NotWellFormed))
           "/no/such/dir" {| status_code := 404; content := NotWellFormed |});
    reflexivity.
Defined.

(** C7: when the server answers the MKCOL with 201 or with 405,
    [create_directory] returns [True]; no exception is raised for a 405. *)
Theorem create_directory_created_or_exists (self : NextcloudClient)
        (remote_path : string) (response : Response) :
  session self {| method := "MKCOL";
                  url := _build_url self (url_path remote_path);
                  headers := [];
                  data := None;
                  auth := basic_auth self |} = Return response ->
  status_code response = 201%Z \/ status_code response = 405%Z ->
  create_directory self remote_path = Return (Some true).
Proof.
  intros Hsend Hst. rewrite (create_directory_by_status _ _ _ Hsend).
  destruct Hst as [-> | ->]; reflexivity.
Qed.

Lemma create_directory_created_or_exists_witness :
  create_directory (alice (answering 405 NotWellFormed)) "/docs" = Return (Some true)
  /\ create_directory (alice (answering 201 NotWellFormed)) "/docs" = Return (Some true).
Proof.
  split.
  - apply (create_directory_created_or_exists (alice (answering 405 NotWellFormed))
             "/docs" {| status_code := 405; content := NotWellFormed |});
      [reflexivity | right; reflexivity].
  - apply (create_directory_created_or_exists (alice (answering 201 NotWellFormed))
             "/docs" {| status_code := 201; content := NotWellFormed |});
      [reflexivity | left; reflexivity].
Defined.

(** A syntax error in the body: when the server answers the PROPFIND with
    207 and the parser reports a syntax error in the body, [list_directory]
    raises [ParseError]; that exception is not an [HTTPError], nor any
    [RequestException]. *)
Theorem list_directory_malformed_body (self : NextcloudClient) (remote_path : string)
        (response : Response) :
  session self {| method := "PROPFIND";
                  url := _build_url self remote_path;
                  headers := [("Depth", "1")];
                  data := None;
                  auth := basic_auth self |} = Return response ->
  status_code response = 207%Z ->
  content response = NotWellFormed ->
  list_directory self remote_path = Raise ParseError
  /\ (forall r, ParseError <> HTTPError r)
  /\ is_RequestException ParseError = false
  /\ (forall r, is_RequestException (HTTPError r) = true).
Proof.
  intros Hsend Hst Hbody. split; [|split; [discriminate | split; reflexivity]].
  unfold list_directory. rewrite Hsend. simpl bind.
  rewrite _handle_response_listed by (rewrite Hst; reflexivity).
  rewrite Hst, Hbody. reflexivity.
Qed.

Lemma list_directory_malformed_body_witness :
  list_directory (alice (answering 207 NotWellFormed)) "/docs" = Raise ParseError.
Proof.
  apply (list_directory_malformed_body (alice (answering 207 NotWellFormed))
           "/docs" {| status_code := 207; content := NotWellFormed |});
    reflexivity.
Defined.

(** C9, where the code departs from it: a 207 whose body names a multi-byte
    encoding (or one Python does not know) in its XML declaration, such as
    [<?xml version="1.0" encoding="shift_jis"?><d:multistatus xmlns:d="DAV:">],
    which is not well-formed, makes [ET.fromstring] raise [ValueError] (or
    [LookupError]).  Neither handler of [list_directory] catches it, so that
    exception, not a [ParseError], is what the caller gets. *)
Theorem list_directory_encoding_error_is_no_parse_error :
  list_directory
    (alice (answering 207 (EncodingRejected "multi-byte encodings are not supported")))
    "/docs"
  = Raise (ValueError "multi-byte encodings are not supported")
  /\ list_directory
       (alice (answering 207 (EncodingUnknown "unknown encoding: bogus"))) "/docs"
     = Raise (LookupError "unknown encoding: bogus")
  /\ ValueError "multi-byte encodings are not supported" <> ParseError
  /\ LookupError "unknown encoding: bogus" <> ParseError.
Proof. repeat split; discriminate. Qed.

(** ** Listings *)

(** C3: no item of a listing has, once its trailing slashes are stripped,
    the href of the listed directory itself (the DAV root followed by the
    stripped request path); that href, and the whole result, are the same
    when the request path has one more slash in front or behind, and for
    every request path that is the same once its outer slashes are stripped. *)
Theorem list_directory_excludes_self (self : NextcloudClient) (remote_path : string)
        (items : list Item) :
  list_directory self remote_path = Return items ->
  Forall (fun it => rstrip (href it) "/" <> base_href_path_check self remote_path) items
  /\ base_href_path_check self ("/" ++ remote_path)
     = base_href_path_check self remote_path
  /\ base_href_path_check self (remote_path ++ "/")
     = base_href_path_check self remote_path
  /\ list_directory self ("/" ++ remote_path) = Return items
  /\ list_directory self (remote_path ++ "/") = Return items
  /\ (forall other_path,
        strip other_path "/" = strip remote_path "/" ->
        list_directory self other_path = Return items).
Proof.
  intros Hret.
  split.
  { apply (list_directory_returns _ self remote_path items); [|exact Hret].
    intros href dir Hne. exact Hne. }
  split; [apply base_href_path_check_leading_slash|].
  split; [apply base_href_path_check_trailing_slash|].
  split; [now rewrite list_directory_leading_slash|].
  split; [now rewrite list_directory_trailing_slash|].
  intros other_path Heq. now rewrite (list_directory_strip self _ _ Heq).
Qed.

Lemma list_directory_excludes_self_witness :
  list_directory (alice (answering 207 (WellFormed docs_listing))) "/docs" = Return docs_items
  /\ Forall (fun it => rstrip (href it) "/" <> "/remote.php/dav/files/alice/docs")
            docs_items
  /\ list_directory (alice (answering 207 (WellFormed docs_listing))) "/docs/"
     = Return docs_items.
Proof.
  pose proof (list_directory_excludes_self
                (alice (answering 207 (WellFormed docs_listing))) "/docs"
                docs_items eq_refl) as [Hself [_ [_ [_ [Htrail _]]]]].
  split; [reflexivity|]. split; [exact Hself | exact Htrail].
Defined.

(** C8, as the code has it: the name of an item is the last piece of its
    href, trailing slashes stripped, cut at the slashes.  When the href has a
    character other than a slash, that piece is not empty and is the final
    non-empty segment of the href; when the href is made of slashes only, the
    name is empty. *)
Theorem listed_name_is_last_piece (self : NextcloudClient) (remote_path : string)
        (items : list Item) :
  list_directory self remote_path = Return items ->
  Forall (fun it =>
            name it = List.last (split (rstrip (href it) "/") "/") ""
            /\ (rstrip (href it) "/" <> "" ->
                name it <> ""
                /\ name it = final_nonempty_segment (href it)
                /\ name it = final_nonempty_segment (rstrip (href it) "/"))
            /\ (rstrip (href it) "/" = "" -> name it = ""))
         items.
Proof.
  apply list_directory_returns. intros h dir _. cbn [href name].
  unfold last_item.
  split; [reflexivity|]. split.
  - intros Hne.
    destruct (final_nonempty_segment_rstrip h Hne) as [Hlast [Hfinal Hfinal']].
    split; [exact Hlast|]. split; [now rewrite Hfinal | now rewrite Hfinal'].
  - intros ->. reflexivity.
Qed.

Lemma listed_name_is_last_piece_witness :
  Forall (fun it => name it <> "" /\ name it = final_nonempty_segment (href it))
         docs_items.
Proof.
  pose proof (listed_name_is_last_piece
                (alice (answering 207 (WellFormed docs_listing))) "/docs"
                docs_items eq_refl) as H.
  apply Forall_forall. intros it Hin.
  destruct (proj1 (Forall_forall _ _) H it Hin) as [_ [Hne _]].
  assert (Hh : rstrip (href it) "/" <> "").
  { destruct Hin as [<- | [<- | []]]; discriminate. }
  destruct (Hne Hh) as [H1 [H2 _]]. split; assumption.
Defined.

(** C8, as stated, fails: a response whose href is ["/"] is listed with an
    empty name, and that href has no non-empty segment. *)
Lemma listing_with_empty_name :
  list_directory (alice (answering 207 (WellFormed root_href_listing))) "/docs"
  = Return [ {| href := "/"; name := ""; is_dir := true |} ]
  /\ ~ Forall (fun it => name it <> "")
         [ {| href := "/"; name := ""; is_dir := true |} ]
  /\ nonempty_segments "/" = [].
Proof.
  split; [reflexivity|]. split; [|reflexivity].
  intros H. inversion H as [|? ? Hname _]; subst. now apply Hname.
Qed.

(* ================================================================== *)
(** * More about paths and their encoding *)
(* ================================================================== *)

Module PathFacts.
Import PyStr Urllib Notions Shapes PyStrFacts UrllibFacts.
Local Open Scope string_scope.

Lemma append_cancel_l (s a b : string) : s ++ a = s ++ b -> a = b.
Proof.
  induction s as [|c s IH]; simpl; intros H; [exact H|].
  injection H as H. now apply IH.
Qed.

(** ** Joining what was split *)

Lemma join_cons_head (c a : ascii) (pieces : list string) :
  pieces <> [] ->
  join (String c "") (cons_head a pieces) = String a (join (String c "") pieces).
Proof.
  destruct pieces as [|p [|q rest]]; [congruence | reflexivity | reflexivity].
Qed.

Lemma join_split (c : ascii) (s : string) :
  join (String c "") (split s c) = s.
Proof.
  induction s as [|a s IH]; [reflexivity|].
  destruct (Ascii.eqb a c) eqn:Hac.
  - apply Ascii.eqb_eq in Hac; subst a. rewrite split_cons_sep.
    pose proof (split_not_nil c s) as Hn.
    destruct (split s c) as [|p rest] eqn:E; [congruence|].
    change (join (String c "") ("" :: p :: rest))
      with (String c (join (String c "") (p :: rest))).
    now rewrite IH.
  - rewrite split_cons_other by assumption.
    rewrite join_cons_head by apply split_not_nil. now rewrite IH.
Qed.

(** ** Stripping twice *)

Lemma rstrip_idem (c : ascii) (s : string) :
  rstrip (rstrip s c) c = rstrip s c.
Proof.
  induction s as [|a s IH]; [reflexivity|].
  destruct (Ascii.eqb a c) eqn:Hac.
  - apply Ascii.eqb_eq in Hac; subst a. rewrite rstrip_cons_sep.
    destruct (rstrip s c) as [|b r] eqn:E; [reflexivity|].
    rewrite rstrip_cons_sep, IH. reflexivity.
  - rewrite !rstrip_cons_other by assumption. now rewrite IH.
Qed.

Lemma lstrip_idem (c : ascii) (s : string) :
  lstrip (lstrip s c) c = lstrip s c.
Proof.
  induction s as [|a s IH]; [reflexivity|].
  simpl. destruct (Ascii.eqb a c) eqn:Hac; [exact IH|].
  simpl. now rewrite Hac.
Qed.

Lemma rstrip_lstrip (c : ascii) (s : string) :
  rstrip (lstrip s c) c = lstrip (rstrip s c) c.
Proof.
  induction s as [|a s IH]; [reflexivity|].
  destruct (Ascii.eqb a c) eqn:Hac.
  - apply Ascii.eqb_eq in Hac; subst a.
    rewrite lstrip_cons_sep, rstrip_cons_sep, IH.
    destruct (rstrip s c); [reflexivity | now rewrite lstrip_cons_sep].
  - rewrite rstrip_cons_other by assumption.
    simpl lstrip. rewrite Hac. now rewrite rstrip_cons_other.
Qed.

Lemma rstrip_strip (c : ascii) (s : string) :
  rstrip (strip s c) c = strip s c.
Proof. unfold strip. now rewrite rstrip_lstrip, rstrip_idem. Qed.

Lemma strip_idem (c : ascii) (s : string) :
  strip (strip s c) c = strip s c.
Proof.
  unfold strip at 1. rewrite rstrip_strip. unfold strip. apply lstrip_idem.
Qed.


Lemma endswith_rstrip (c : ascii) (s : string) :
  endswith (rstrip s c) c = false.
Proof.
  induction s as [|a s IH]; [reflexivity|].
  simpl rstrip. destruct (rstrip s c) as [|b r] eqn:E.
  - destruct (Ascii.eqb a c) eqn:Hac; [reflexivity | simpl; exact Hac].
  - exact IH.
Qed.

(** ** The last piece *)

Lemma last_split_app_sep (c : ascii) (a b : string) :
  List.last (split (a ++ String c b) c) "" = List.last (split b c) "".
Proof.
  induction a as [|x a IH]; simpl.
  - rewrite Ascii.eqb_refl.
    pose proof (split_not_nil c b). now destruct (split b c).
  - destruct (Ascii.eqb x c).
    + pose proof (split_not_nil c (a ++ String c b)).
      destruct (split (a ++ String c b) c); [congruence | exact IH].
    + assert (Hlen : exists p q rest, split (a ++ String c b) c = p :: q :: rest).
      { clear IH. induction a as [|y a IHa]; simpl.
        - rewrite Ascii.eqb_refl. pose proof (split_not_nil c b).
          destruct (split b c) as [|q rest]; [congruence|]. now exists "", q, rest.
        - destruct IHa as [p [q [rest Hs]]]. rewrite Hs.
          destruct (Ascii.eqb y c); [now exists "", p, (q :: rest)|].
          now exists (String y p), q, rest. }
      destruct Hlen as [p [q [rest Hs]]]. rewrite Hs in *. exact IH.
Qed.

Lemma split_pieces_no_sep (c : ascii) (s : string) :
  Forall (fun p => contains p c = false) (split s c).
Proof.
  induction s as [|a s IH]; [repeat constructor|].
  destruct (Ascii.eqb a c) eqn:Hac.
  - apply Ascii.eqb_eq in Hac; subst a. rewrite split_cons_sep.
    constructor; [reflexivity | exact IH].
  - rewrite split_cons_other by assumption.
    destruct (split s c) as [|p rest]; simpl.
    + repeat constructor. simpl. now rewrite Hac.
    + inversion IH; subst. constructor; [|assumption].
      simpl. rewrite Hac. assumption.
Qed.

Lemma last_no_sep (c : ascii) (pieces : list string) :
  Forall (fun p => contains p c = false) pieces ->
  contains (List.last pieces "") c = false.
Proof.
  induction 1 as [|p rest Hp _ IH]; [reflexivity|].
  destruct rest; [exact Hp | exact IH].
Qed.

(** ** Decoding a whole encoded path *)

Lemma unquote_to_bytes_quote_app (s t : string) :
  unquote_to_bytes (quote s "" ++ t) = s ++ unquote_to_bytes t.
Proof.
  induction s as [|b s IH]; [reflexivity|].
  simpl quote. rewrite append_assoc, unquote_to_bytes_quoter, IH. reflexivity.
Qed.


Lemma unquote_to_bytes_join_quote (segments : list string) :
  unquote_to_bytes (join "/" (map (fun part => quote part "") segments))
  = join "/" segments.
Proof.
  induction segments as [|seg [|seg' rest] IH]; [reflexivity | |].
  - simpl. apply unquote_to_bytes_quote.
  - change (join "/" (map (fun part => quote part "") (seg :: seg' :: rest)))
      with (quote seg "" ++ String "/" (join "/" (map (fun part => quote part "")
                                                        (seg' :: rest)))).
    rewrite unquote_to_bytes_quote_app.
    change (unquote_to_bytes (String "/" ?x)) with (String "/" (unquote_to_bytes x)).
    simpl unquote_to_bytes at 1.
    change (join "/" (seg :: seg' :: rest))
      with (seg ++ String "/" (join "/" (seg' :: rest))).
    now rewrite <- IH.
Qed.


(** Byte for byte, the encoded path decodes to the stripped path. *)
Lemma unquote_to_bytes_encoded_path (p : string) :
  unquote_to_bytes
    (join "/" (map (fun part => quote part "") (split (strip p "/") "/")))
  = strip p "/".
Proof. now rewrite unquote_to_bytes_join_quote, join_split. Qed.

(** ** Well-formed UTF-8 put together *)



End PathFacts.

(* ================================================================== *)
(** * Further properties of the client *)
(* ================================================================== *)

Import Shapes PathFacts.

(** ** Construction *)

(** X1: built from a non-empty server URL, the client keeps that URL without
    its trailing slashes, so its base URL never ends in a slash, the URL with
    one more slash at its end gives the same client, and every URL the client
    builds is the stripped server URL, ["/remote.php/dav/files/"], the user
    name, a slash and the encoded path. *)
Theorem init_drops_trailing_slashes (s : Session)
        (nextcloud_url user password : string) :
  nextcloud_url <> "" ->
  exists self,
    __init__ s nextcloud_url user password = Return self
    /\ __init__ s (nextcloud_url ++ "/") user password = Return self
    /\ endswith (base_url self) "/" = false
    /\ forall remote_path,
        _build_url self remote_path
        = rstrip nextcloud_url "/" ++ ("/remote.php/dav/files/" ++ user) ++ "/" ++
          join "/" (map (fun part => quote part "")
                        (split (strip remote_path "/") "/")).
Proof.
  intros Hne. unfold __init__.
  apply is_empty_false in Hne. rewrite Hne.
  assert (Hne' : is_empty (nextcloud_url ++ "/") = false)
    by (destruct nextcloud_url; reflexivity).
  rewrite Hne', rstrip_app_sep.
  eexists. split; [reflexivity|]. split; [reflexivity|].
  split; [apply endswith_rstrip|].
  intros remote_path. apply _build_url_unfold.
Qed.

Lemma init_drops_trailing_slashes_witness :
  exists self,
    __init__ probe "http://cloud.example//" "alice" "secret" = Return self
    /\ base_url self = "http://cloud.example"
    /\ _build_url self "a b" = "http://cloud.example/remote.php/dav/files/alice/a%20b".
Proof.
  destruct (init_drops_trailing_slashes probe "http://cloud.example//"
              "alice" "secret") as [self [Hinit [_ [_ Hurl]]]]; [discriminate|].
  exists self. split; [exact Hinit|].
  injection Hinit as <-. split; [reflexivity | apply (Hurl "a b")].
Defined.

(** ** Status codes *)

(** X2: [_handle_response] raises exactly for a status that is not among the
    success codes and lies in 400..599, and the [HTTPError] carries the
    response; for every other status it returns. *)
Theorem handle_response_raises_iff (response : Response) (success_codes : list Z) :
  (_handle_response response success_codes = Raise (HTTPError response)
   <-> ~ In (status_code response) success_codes
       /\ (400 <= status_code response < 600)%Z)
  /\ (_handle_response response success_codes = Return tt
      <-> In (status_code response) success_codes
          \/ (status_code response < 400)%Z
          \/ (600 <= status_code response)%Z)
  /\ (forall e, _handle_response response success_codes = Raise e ->
                e = HTTPError response).
Proof.
  unfold _handle_response, raise_for_status.
  destruct (existsb (Z.eqb (status_code response)) success_codes) eqn:Hin.
  - apply existsb_exists in Hin as [x [Hx Heq]]. apply Z.eqb_eq in Heq. subst x.
    simpl. split; [|split].
    + split; [discriminate | intros [Hn _]; contradiction].
    + split; [now left | reflexivity].
    + discriminate.
  - assert (Hnot : ~ In (status_code response) success_codes).
    { intros HIn.
      assert (Hex : existsb (Z.eqb (status_code response)) success_codes = true)
        by (apply existsb_exists; eexists; split; [exact HIn | apply Z.eqb_refl]).
      congruence. }
    simpl.
    destruct (400 <=? status_code response)%Z eqn:Hlo;
      destruct (status_code response <? 600)%Z eqn:Hhi; simpl;
      try apply Z.leb_le in Hlo; try apply Z.leb_gt in Hlo;
      try apply Z.ltb_lt in Hhi; try apply Z.ltb_ge in Hhi;
      (split; [|split]);
      try (split; [intros; split; [assumption | lia] | reflexivity]);
      try (split; [discriminate | intros [_ ?]; lia]);
      try (split; [discriminate | intros [? | ?]; [contradiction | lia]]);
      try (split; [intros; lia | reflexivity]);
      try (intros e [= <-]; reflexivity);
      try discriminate.
Qed.

(** X3: [upload_file] never returns [False] and [create_directory] never
    returns [False]: each returns [True] (or, for [create_directory],
    nothing) or raises. *)
Theorem upload_and_mkdir_never_return_false
        (files guess_type : string -> option string) (self : NextcloudClient)
        (local_file_path remote_path : string) :
  upload_file files guess_type self local_file_path remote_path <> Return false
  /\ create_directory self remote_path <> Return (Some false).
Proof.
  split.
  - unfold upload_file. destruct (files local_file_path); [|discriminate].
    destruct (session self _) as [response|e]; simpl; [|discriminate].
    destruct (_handle_response response _) as [[]|e]; simpl; discriminate.
  - unfold create_directory.
    destruct (session self _) as [response|e]; simpl; [|discriminate].
    destruct (status_code response =? 201)%Z; [discriminate|].
    destruct (status_code response =? 405)%Z; [discriminate|].
    destruct (_handle_response response _) as [[]|e]; simpl; discriminate.
Qed.

(** ** URLs *)

(** X4: two paths get the same URL exactly when they are the same once
    their leading and trailing slashes are stripped; different stripped
    paths never share a URL. *)
Theorem build_url_same_iff_same_stripped_path (self : NextcloudClient)
        (p q : string) :
  _build_url self p = _build_url self q <-> strip p "/" = strip q "/".
Proof.
  rewrite !_build_url_unfold. split.
  - intros H.
    apply append_cancel_l in H. apply append_cancel_l in H.
    apply append_cancel_l in H.
    apply (f_equal unquote_to_bytes) in H.
    now rewrite !unquote_to_bytes_encoded_path in H.
  - now intros ->.
Qed.

(** What [quote] does to a character it need not escape. *)
Lemma quoter_always_safe (b : ascii) :
  contains _ALWAYS_SAFE b = true -> quoter "" b = String b "".
Proof. intros H. unfold quoter. now rewrite H. Qed.

Lemma plain_path_cons (c : ascii) (s : string) :
  plain_path (String c s)
  = (contains _ALWAYS_SAFE c || Ascii.eqb c "/") && plain_path s.
Proof. reflexivity. Qed.

Lemma join_quote_split_plain (s : string) :
  plain_path s = true ->
  join "/" (map (fun part => quote part "") (split s "/")) = s.
Proof.
  induction s as [|a s IH]; [reflexivity|].
  rewrite plain_path_cons. intros H. apply andb_true_iff in H as [Ha Hs].
  specialize (IH Hs).
  pose proof (split_not_nil "/" s) as Hn.
  destruct (Ascii.eqb a "/") eqn:Hslash.
  - apply Ascii.eqb_eq in Hslash; subst a. rewrite split_cons_sep.
    destruct (split s "/") as [|piece rest]; [congruence|].
    change (join "/" (map (fun part => quote part "") ("" :: piece :: rest)))
      with (String "/" (join "/" (map (fun part => quote part "") (piece :: rest)))).
    now rewrite IH.
  - rewrite orb_false_r in Ha. rewrite split_cons_other by assumption.
    destruct (split s "/") as [|piece rest]; [congruence|].
    cbn [cons_head map].
    change (quote (String a piece) "") with (quoter "" a ++ quote piece "").
    rewrite (quoter_always_safe a Ha). cbn [map] in IH.
    destruct rest as [|piece' rest].
    + cbn [map join append] in *. now rewrite IH.
    + change (join "/" ((String a "" ++ quote piece "") ::
                        map (fun part => quote part "") (piece' :: rest)))
        with (String a (join "/" (quote piece "" ::
                                  map (fun part => quote part "") (piece' :: rest)))).
      now rewrite IH.
Qed.

Lemma plain_path_lstrip (s : string) :
  plain_path s = true -> plain_path (lstrip s "/") = true.
Proof.
  induction s as [|a s IH]; [trivial|].
  intros H. cbn [lstrip]. destruct (Ascii.eqb a "/"); [|exact H].
  rewrite plain_path_cons in H. apply andb_true_iff in H as [_ Hs]. now apply IH.
Qed.

Lemma plain_path_rstrip (s : string) :
  plain_path s = true -> plain_path (rstrip s "/") = true.
Proof.
  induction s as [|a s IH]; [trivial|].
  rewrite plain_path_cons. intros H. apply andb_true_iff in H as [Ha Hs].
  specialize (IH Hs). cbn [rstrip].
  destruct (rstrip s "/") as [|b r].
  - destruct (Ascii.eqb a "/") eqn:E; [reflexivity|].
    rewrite plain_path_cons, E, Ha. reflexivity.
  - rewrite plain_path_cons, Ha, IH. reflexivity.
Qed.

(** X5: a path made of letters, digits, [_.-~] and slashes goes into the
    URL as it is, without its leading and trailing slashes. *)
Theorem build_url_plain_path (self : NextcloudClient) (remote_path : string) :
  plain_path remote_path = true ->
  _build_url self remote_path
  = base_url self ++ dav_base_path self ++ "/" ++ strip remote_path "/".
Proof.
  intros Hplain. rewrite _build_url_unfold.
  rewrite join_quote_split_plain; [reflexivity|].
  unfold strip. now apply plain_path_lstrip, plain_path_rstrip.
Qed.

Lemma build_url_plain_path_witness :
  _build_url (alice probe) "/my_django_uploads_test/test_upload.txt"
  = "http://cloud.example/remote.php/dav/files/alice/my_django_uploads_test/test_upload.txt".
Proof.
  apply (build_url_plain_path (alice probe)
           "/my_django_uploads_test/test_upload.txt"). reflexivity.
Defined.

(** ** Listings *)

(** X6: the name of a listed item never contains a slash. *)
Theorem listed_name_has_no_slash (self : NextcloudClient) (remote_path : string)
        (items : list Item) :
  list_directory self remote_path = Return items ->
  Forall (fun it => contains (name it) "/" = false) items.
Proof.
  apply list_directory_returns. intros h dir _. cbn [name].
  unfold last_item. apply last_no_sep, split_pieces_no_sep.
Qed.

Lemma listed_name_has_no_slash_witness :
  Forall (fun it => contains (name it) "/" = false) docs_items.
Proof.
  apply (listed_name_has_no_slash
           (alice (answering 207 (WellFormed docs_listing))) "/docs" docs_items).
  reflexivity.
Defined.

(** The loop only appends to the list it is given. *)
Lemma collect_items_acc (check : string) (responses : list Element)
      (items : list Item) :
  collect_items check responses items
  = (items ++ collect_items check responses [])%list.
Proof.
  revert items. induction responses as [|resp_element rest IH]; intros items.
  - simpl. now rewrite app_nil_r.
  - simpl.
    destruct (find resp_element (DAV "href")) as [href_element|]; [|apply IH].
    destruct (find resp_element (DAV "propstat")) as [propstat_element|];
      [|apply IH].
    destruct (unquote_text (text href_element)) as [h|]; [|apply IH].
    destruct (String.eqb (rstrip h "/") check); [apply IH|].
    rewrite (IH (items ++ _)%list).
    match goal with
    | |- _ = (_ ++ collect_items _ _ ?l)%list => rewrite (IH l)
    end.
    now rewrite app_assoc.
Qed.

Lemma collect_items_app (check : string) (first second : list Element) :
  collect_items check (first ++ second) []
  = (collect_items check first [] ++ collect_items check second [])%list.
Proof.
  assert (Hgen : forall items,
             collect_items check (first ++ second) items
             = collect_items check second (collect_items check first items)).
  { induction first as [|resp_element rest IH]; intros items; [reflexivity|].
    simpl.
    destruct (find resp_element (DAV "href")) as [href_element|]; [|apply IH].
    destruct (find resp_element (DAV "propstat")) as [propstat_element|];
      [|apply IH].
    destruct (unquote_text (text href_element)) as [h|]; [|apply IH].
    destruct (String.eqb (rstrip h "/") check); apply IH. }
  rewrite Hgen. apply collect_items_acc.
Qed.

Lemma collect_items_length (check : string) (responses : list Element) :
  (List.length (collect_items check responses []) <= List.length responses)%nat.
Proof.
  induction responses as [|resp_element rest IH]; [simpl; lia|].
  assert (Hone : (List.length (collect_items check [resp_element] []) <= 1)%nat).
  { simpl.
    destruct (find resp_element (DAV "href")) as [href_element|]; [|simpl; lia].
    destruct (find resp_element (DAV "propstat")) as [propstat_element|];
      [|simpl; lia].
    destruct (unquote_text (text href_element)) as [h|]; [|simpl; lia].
    destruct (String.eqb (rstrip h "/") check); simpl; lia. }
  rewrite (collect_items_app check [resp_element] rest : 
             collect_items check (resp_element :: rest) [] = _).
  rewrite length_app. cbn [List.length].
  remember (List.length (collect_items check [resp_element] [])) as n.
  remember (List.length (collect_items check rest [])) as m.
  lia.
Qed.

Lemma list_directory_207 (self : NextcloudClient) (remote_path : string)
      (response : Response) (root : Element) :
  session self {| method := "PROPFIND";
                  url := _build_url self remote_path;
                  headers := [("Depth", "1")];
                  data := None;
                  auth := basic_auth self |} = Return response ->
  status_code response = 207%Z ->
  content response = WellFormed root ->
  list_directory self remote_path
  = Return (collect_items (base_href_path_check self remote_path)
                          (findall root (DAV "response")) []).
Proof.
  intros Hsend Hst Hbody. unfold list_directory. rewrite Hsend. simpl bind.
  rewrite _handle_response_listed by (rewrite Hst; reflexivity).
  rewrite Hst, Hbody. reflexivity.
Qed.

(** X7: a listing follows the document.  When the server answers 207 with a
    body whose root has the children [first ++ second], the result is the
    items of [first] followed by the items of [second], and it has at most one
    item for each child of the root. *)
Theorem listing_follows_document (self : NextcloudClient) (remote_path : string)
        (response : Response) (root_tag : string) (root_text : option string)
        (first second : list Element) :
  session self {| method := "PROPFIND";
                  url := _build_url self remote_path;
                  headers := [("Depth", "1")];
                  data := None;
                  auth := basic_auth self |} = Return response ->
  status_code response = 207%Z ->
  content response = WellFormed (Elem root_tag root_text (first ++ second)) ->
  let check := base_href_path_check self remote_path in
  let items_of children :=
    collect_items check (findall (Elem root_tag root_text children) (DAV "response")) [] in
  list_directory self remote_path = Return (items_of first ++ items_of second)%list
  /\ (List.length (items_of first ++ items_of second)
      <= List.length (first ++ second))%nat.
Proof.
  intros Hsend Hst Hbody check items_of.
  rewrite (list_directory_207 _ _ _ _ Hsend Hst Hbody).
  unfold items_of, findall. cbn [children].
  rewrite filter_app, collect_items_app. split; [reflexivity|].
  rewrite <- collect_items_app, <- filter_app.
  etransitivity; [apply collect_items_length|]. apply filter_length_le.
Qed.

Lemma listing_follows_document_witness :
  list_directory (alice (answering 207 (WellFormed docs_listing))) "/docs"
  = Return ([ {| href := "/remote.php/dav/files/alice/docs/annual report.pdf";
                 name := "annual report.pdf";
                 is_dir := false |} ]
            ++ [ {| href := "/remote.php/dav/files/alice/docs/old/";
                    name := "old";
                    is_dir := true |} ])%list.
Proof.
  apply (listing_follows_document
           (alice (answering 207 (WellFormed docs_listing))) "/docs"
           {| status_code := 207; content := WellFormed docs_listing |}
           (DAV "multistatus") None
           [ response_element (Some "/remote.php/dav/files/alice/docs/") true;
             response_element
               (Some "/remote.php/dav/files/alice/docs/annual%20report.pdf") false ]
           [ response_element (Some "/remote.php/dav/files/alice/docs/old/") true ]);
    reflexivity.
Defined.

(** ** A listing that echoes the client's own URLs *)












(* ================================================================== *)
(** * Properties of the REST layer *)
(* ================================================================== *)

Lemma listed_status_is_no_error (status : Z) (success_codes : list Z) :
  Forall (fun code => is_error_status code = false) success_codes ->
  existsb (Z.eqb status) success_codes = true ->
  is_error_status status = false.
Proof.
  intros Hall Hex. apply existsb_exists in Hex as [code [Hin Heq]].
  apply Z.eqb_eq in Heq. subst code.
  exact (proj1 (Forall_forall _ _) Hall status Hin).
Qed.

(** X10: the reply of [DELETE /delete] by the status of the server's answer:
    404 for a 404, a 500 carrying the [HTTPError] for every other status in
    400..599, and 200 for every status left. *)
Theorem delete_endpoint_by_status (nc_client : NextcloudClient)
        (str : FastApi.Caught -> string) (remote_path : string)
        (response : Response) :
  session nc_client {| method := "DELETE";
                       url := _build_url nc_client remote_path;
                       headers := [];
                       data := None;
                       auth := basic_auth nc_client |} = Return response ->
  FastApi.delete_resource nc_client str remote_path =
  if (status_code response =? 404)%Z
  then FastApi.Json 404
         (FastApi.Message ("Resource '" ++ remote_path ++ "' not found.") (Some false))
  else if is_error_status (status_code response)
  then FastApi.HTTPException 500
         (str (FastApi.ClientException (HTTPError response)))
  else FastApi.Json 200
         (FastApi.Message ("Resource at '" ++ remote_path ++ "' deleted.") (Some true)).
Proof.
  intros Hsend. unfold FastApi.delete_resource.
  rewrite (delete_by_status _ _ _ Hsend). unfold is_error_status.
  destruct (status_code response =? 404)%Z; [reflexivity|].
  destruct (status_code response =? 204)%Z eqn:E204.
  - apply Z.eqb_eq in E204. rewrite E204. reflexivity.
  - now destruct ((400 <=? status_code response) && (status_code response <? 600))%Z.
Qed.

Lemma delete_endpoint_by_status_witness :
  FastApi.reply_status
    (FastApi.delete_resource (alice (answering 404 NotWellFormed)) kind_of "/gone") = 404%Z
  /\ FastApi.delete_resource (alice (answering 403 NotWellFormed)) kind_of "/locked"
     = FastApi.HTTPException 500 "HTTPError".
Proof.
  split.
  - rewrite (delete_endpoint_by_status (alice (answering 404 NotWellFormed)) kind_of
               "/gone" {| status_code := 404; content := NotWellFormed |} eq_refl).
    reflexivity.
  - rewrite (delete_endpoint_by_status (alice (answering 403 NotWellFormed)) kind_of
               "/locked" {| status_code := 403; content := NotWellFormed |} eq_refl).
    reflexivity.
Defined.

(** X11: the reply of [GET /list-directory] by the server's answer: 200 with
    no items for a 404, a 500 carrying the [HTTPError] for every other status
    in 400..599, and otherwise what [ET.fromstring] makes of the body: 200
    with the items when it returns the root, a 500 carrying the [ParseError]
    for a syntax error, a 500 carrying the [ValueError] or the [LookupError]
    for a body whose declaration names an encoding the parser cannot take. *)
Theorem list_endpoint_by_answer (nc_client : NextcloudClient)
        (str : FastApi.Caught -> string) (remote_path : string)
        (response : Response) :
  session nc_client {| method := "PROPFIND";
                       url := _build_url nc_client remote_path;
                       headers := [("Depth", "1")];
                       data := None;
                       auth := basic_auth nc_client |} = Return response ->
  FastApi.list_directory nc_client str remote_path =
  if (status_code response =? 404)%Z
  then FastApi.Json 200 (FastApi.Listing remote_path [])
  else if is_error_status (status_code response)
  then FastApi.HTTPException 500
         (str (FastApi.ClientException (HTTPError response)))
  else match content response with
       | WellFormed root =>
           FastApi.Json 200
             (FastApi.Listing remote_path
                (collect_items (base_href_path_check nc_client remote_path)
                               (findall root (DAV "response")) []))
       | NotWellFormed =>
           FastApi.HTTPException 500 (str (FastApi.ClientException ParseError))
       | EncodingRejected msg =>
           FastApi.HTTPException 500 (str (FastApi.ClientException (ValueError msg)))
       | EncodingUnknown msg =>
           FastApi.HTTPException 500 (str (FastApi.ClientException (LookupError msg)))
       end.
Proof.
  intros Hsend. unfold FastApi.list_directory, list_directory.
  rewrite Hsend. simpl bind.
  destruct (status_code response =? 404)%Z; [reflexivity|].
  unfold _handle_response, raise_for_status, is_error_status. simpl existsb.
  destruct (status_code response =? 207)%Z eqn:E207.
  - apply Z.eqb_eq in E207. rewrite E207. simpl.
    now destruct (content response).
  - simpl.
    destruct ((400 <=? status_code response) && (status_code response <? 600))%Z;
      [reflexivity|].
    simpl. now destruct (content response).
Qed.

Lemma list_endpoint_by_answer_witness :
  FastApi.list_directory (alice (answering 404 NotWellFormed)) kind_of "/no/such/dir"
  = FastApi.Json 200 (FastApi.Listing "/no/such/dir" [])
  /\ FastApi.list_directory (alice (answering 207 NotWellFormed)) kind_of "/docs"
     = FastApi.HTTPException 500 "ParseError"
  /\ FastApi.list_directory
       (alice (answering 207 (EncodingRejected "multi-byte encodings are not supported")))
       kind_of "/docs"
     = FastApi.HTTPException 500 "Exception".
Proof.
  split; [|split].
  - rewrite (list_endpoint_by_answer (alice (answering 404 NotWellFormed)) kind_of
               "/no/such/dir" {| status_code := 404; content := NotWellFormed |}
               eq_refl).
    reflexivity.
  - rewrite (list_endpoint_by_answer (alice (answering 207 NotWellFormed)) kind_of
               "/docs" {| status_code := 207; content := NotWellFormed |} eq_refl).
    reflexivity.
  - rewrite (list_endpoint_by_answer
               (alice (answering 207
                  (EncodingRejected "multi-byte encodings are not supported")))
               kind_of "/docs"
               {| status_code := 207;
                  content := EncodingRejected "multi-byte encodings are not supported" |}
               eq_refl).
    reflexivity.
Defined.

(** X12: the reply of [POST /create-directory] by the status of the server's
    answer: 200 with [success] true for 201 and 405, a 500 carrying the
    [HTTPError] for every other status in 400..599, and 200 with [success]
    null for every status left. *)
Theorem create_directory_endpoint_by_status (nc_client : NextcloudClient)
        (str : FastApi.Caught -> string) (remote_path : string)
        (response : Response) :
  session nc_client {| method := "MKCOL";
                       url := _build_url nc_client remote_path;
                       headers := [];
                       data := None;
                       auth := basic_auth nc_client |} = Return response ->
  let message := "Directory '" ++ remote_path ++ "' created or already exists." in
  FastApi.create_directory nc_client str remote_path =
  if ((status_code response =? 201) || (status_code response =? 405))%Z
  then FastApi.Json 200 (FastApi.Message message (Some true))
  else if is_error_status (status_code response)
  then FastApi.HTTPException 500
         (str (FastApi.ClientException (HTTPError response)))
  else FastApi.Json 200 (FastApi.Message message None).
Proof.
  intros Hsend message. unfold FastApi.create_directory.
  rewrite <- (_build_url_url_path nc_client remote_path) in Hsend.
  rewrite (create_directory_by_status _ _ _ Hsend).
  unfold is_error_status. simpl existsb. rewrite orb_false_r.
  destruct ((status_code response =? 201) || (status_code response =? 405))%Z;
    [reflexivity|].
  now destruct ((400 <=? status_code response) && (status_code response <? 600))%Z.
Qed.

Lemma create_directory_endpoint_by_status_witness :
  FastApi.create_directory (alice (answering 405 NotWellFormed)) kind_of "/docs"
  = FastApi.Json 200
      (FastApi.Message "Directory '/docs' created or already exists." (Some true))
  /\ FastApi.create_directory (alice (answering 200 NotWellFormed)) kind_of "/docs"
     = FastApi.Json 200
         (FastApi.Message "Directory '/docs' created or already exists." None).
Proof.
  split.
  - rewrite (create_directory_endpoint_by_status
               (alice (answering 405 NotWellFormed)) kind_of "/docs"
               {| status_code := 405; content := NotWellFormed |} eq_refl).
    reflexivity.
  - rewrite (create_directory_endpoint_by_status
               (alice (answering 200 NotWellFormed)) kind_of "/docs"
               {| status_code := 200; content := NotWellFormed |} eq_refl).
    reflexivity.
Defined.

(** ** The upload endpoint *)

Lemma write_lookup (fs : FastApi.Files) (path contents : string) :
  FastApi.write fs path contents path = Some contents.
Proof. unfold FastApi.write. now rewrite String.eqb_refl. Qed.

(** X13: when the temporary file can be created, [POST /upload-file] sends
    the uploaded bytes in a PUT to the URL of [remote_path], with the content
    type guessed from the temporary file's name, and replies by the status of
    the answer: a 500 carrying the [HTTPError] for a status in 400..599, 200
    with [success] true for every other status.  Should [os.remove] then
    raise in the [finally] clause, its [OSError] leaves the endpoint in
    place of that reply. *)
Theorem upload_endpoint_by_status (nc_client : NextcloudClient)
        (guess_type : string -> option string) (str : FastApi.Caught -> string)
        (open_fails other_entry remove_fails : string -> bool) (fs : FastApi.Files)
        (remote_path filename contents : string) (response : Response) :
  open_fails ("temp_" ++ filename) = false ->
  session nc_client
          {| method := "PUT";
             url := _build_url nc_client remote_path;
             headers := [("Content-Type",
                          content_type_or_default (guess_type ("temp_" ++ filename)))];
             data := Some contents;
             auth := basic_auth nc_client |} = Return response ->
  fst (FastApi.upload_file nc_client guess_type str open_fails other_entry
                           remove_fails fs remote_path filename contents) =
  if remove_fails ("temp_" ++ filename)
  then FastApi.Unhandled (FastApi.OSError ("temp_" ++ filename))
  else if is_error_status (status_code response)
  then FastApi.HTTPException 500
         (str (FastApi.ClientException (HTTPError response)))
  else FastApi.Json 200
         (FastApi.Message ("File uploaded to " ++ remote_path) (Some true)).
Proof.
  intros Hopen Hsend.
  unfold FastApi.upload_file, FastApi.upload_file_try. rewrite Hopen.
  rewrite (upload_file_by_status _ guess_type nc_client _ remote_path contents
             response (write_lookup fs _ contents) Hsend).
  assert (Hexists : forall a : FastApi.Attempt,
             (let (attempt, fs0) :=
                (a, FastApi.write fs ("temp_" ++ filename) contents) in
              let reply := FastApi.or_500 str attempt in
              if FastApi.exists_ other_entry fs0 ("temp_" ++ filename)
              then match FastApi.remove remove_fails ("temp_" ++ filename) with
                   | Some e => (FastApi.Unhandled e, FastApi.RemoveRaised)
                   | None => (reply, FastApi.Removed)
                   end
              else (reply, FastApi.NothingToRemove))
             = if remove_fails ("temp_" ++ filename)
               then (FastApi.Unhandled (FastApi.OSError ("temp_" ++ filename)),
                     FastApi.RemoveRaised)
               else (FastApi.or_500 str a, FastApi.Removed)).
  { intros a. cbv zeta. unfold FastApi.exists_, FastApi.remove.
    rewrite write_lookup, orb_true_r.
    now destruct (remove_fails ("temp_" ++ filename)). }
  destruct (existsb (Z.eqb (status_code response)) [200; 201; 204]%Z) eqn:Hin.
  - rewrite Hexists.
    rewrite (listed_status_is_no_error (status_code response) [200; 201; 204]%Z);
      [|repeat constructor | exact Hin].
    now destruct (remove_fails ("temp_" ++ filename)).
  - unfold is_error_status.
    destruct ((400 <=? status_code response) && (status_code response <? 600))%Z;
      rewrite Hexists; now destruct (remove_fails ("temp_" ++ filename)).
Qed.

Lemma upload_endpoint_by_status_witness :
  fst (FastApi.upload_file (alice (answering 507 NotWellFormed)) by_extension kind_of
                           (fun _ => false) (fun _ => false) (fun _ => false)
                           no_files "/docs/a.txt" "a.txt" "hello")
  = FastApi.HTTPException 500 "HTTPError"
  /\ fst (FastApi.upload_file (alice (answering 201 NotWellFormed)) by_extension kind_of
                              (fun _ => false) (fun _ => false) (fun _ => false)
                              no_files "/docs/a.txt" "a.txt" "hello")
     = FastApi.Json 200 (FastApi.Message "File uploaded to /docs/a.txt" (Some true))
  /\ fst (FastApi.upload_file (alice (answering 201 NotWellFormed)) by_extension kind_of
                              (fun _ => false) (fun _ => false) (fun _ => true)
                              no_files "/docs/a.txt" "a.txt" "hello")
     = FastApi.Unhandled (FastApi.OSError "temp_a.txt").
Proof.
  split; [|split].
  - rewrite (upload_endpoint_by_status (alice (answering 507 NotWellFormed))
               by_extension kind_of (fun _ => false) (fun _ => false) (fun _ => false)
               no_files "/docs/a.txt" "a.txt" "hello"
               {| status_code := 507; content := NotWellFormed |} eq_refl eq_refl).
    reflexivity.
  - rewrite (upload_endpoint_by_status (alice (answering 201 NotWellFormed))
               by_extension kind_of (fun _ => false) (fun _ => false) (fun _ => false)
               no_files "/docs/a.txt" "a.txt" "hello"
               {| status_code := 201; content := NotWellFormed |} eq_refl eq_refl).
    reflexivity.
  - rewrite (upload_endpoint_by_status (alice (answering 201 NotWellFormed))
               by_extension kind_of (fun _ => false) (fun _ => false) (fun _ => true)
               no_files "/docs/a.txt" "a.txt" "hello"
               {| status_code := 201; content := NotWellFormed |} eq_refl eq_refl).
    reflexivity.
Defined.

(** X15: the temporary file is written before the client reads it, and the
    client never returns [False], so the [try] body of [POST /upload-file]
    never ends in the endpoint's own ["File upload failed."] exception, and
    when the temporary file can be created it never ends in the client's
    [FileNotFoundError] unless the transport raised one. *)
Theorem upload_endpoint_dead_ends (nc_client : NextcloudClient)
        (guess_type : string -> option string)
        (open_fails : string -> bool) (fs : FastApi.Files)
        (remote_path temp_file_path contents : string) :
  (forall status detail,
      fst (FastApi.upload_file_try nc_client guess_type open_fails fs
                                   remote_path temp_file_path contents)
      <> FastApi.Raised (FastApi.RaisedHTTPException status detail))
  /\ (forall path,
         fst (FastApi.upload_file_try nc_client guess_type open_fails fs
                                      remote_path temp_file_path contents)
         = FastApi.Raised (FastApi.ClientException (FileNotFoundError path)) ->
         exists request, session nc_client request = Raise (FileNotFoundError path)).
Proof.
  unfold FastApi.upload_file_try.
  destruct (open_fails temp_file_path); [split; intros; discriminate|].
  pose proof (proj1 (upload_and_mkdir_never_return_false
                       (FastApi.write fs temp_file_path contents) guess_type nc_client
                       temp_file_path remote_path)) as Hnever.
  split.
  - intros status detail.
    destruct (upload_file _ guess_type nc_client temp_file_path remote_path)
      as [[|]|e]; [discriminate | congruence | discriminate].
  - intros path. unfold upload_file. rewrite write_lookup.
    destruct (session nc_client _) as [response|e] eqn:Hsend; simpl.
    + destruct (_handle_response response _) as [[]|e] eqn:Hh; simpl;
        [discriminate|].
      intros [= ->].
      destruct (handle_response_raises_iff response [200; 201; 204]%Z)
        as [_ [_ Honly]].
      specialize (Honly _ Hh). discriminate.
    + intros [= ->]. eexists. exact Hsend.
Qed.

(** X16: no endpoint replies with a status other than 200 or 500, except
    that [DELETE /delete] may reply 404.  (An exception that leaves the
    upload endpoint from its [finally] clause is answered 500.) *)
Theorem endpoint_statuses (nc_client : NextcloudClient)
        (guess_type : string -> option string) (str : FastApi.Caught -> string)
        (open_fails other_entry remove_fails : string -> bool) (fs : FastApi.Files)
        (remote_path filename contents : string) :
  In (FastApi.reply_status (FastApi.create_directory nc_client str remote_path))
     [200; 500]%Z
  /\ In (FastApi.reply_status
           (fst (FastApi.upload_file nc_client guess_type str open_fails other_entry
                                     remove_fails fs remote_path filename contents)))
        [200; 500]%Z
  /\ In (FastApi.reply_status (FastApi.list_directory nc_client str remote_path))
        [200; 500]%Z
  /\ In (FastApi.reply_status (FastApi.delete_resource nc_client str remote_path))
        [200; 404; 500]%Z.
Proof.
  split; [|split; [|split]].
  - unfold FastApi.create_directory.
    destruct (create_directory nc_client remote_path); simpl; tauto.
  - unfold FastApi.upload_file, FastApi.upload_file_try, FastApi.remove.
    destruct (open_fails _).
    + destruct (FastApi.exists_ _ _ _); [destruct (remove_fails _)|]; simpl; tauto.
    + destruct (upload_file _ _ _ _ _) as [[|]|e];
        (destruct (FastApi.exists_ _ _ _); [destruct (remove_fails _)|]);
        simpl; tauto.
  - unfold FastApi.list_directory.
    destruct (list_directory nc_client remote_path); simpl; tauto.
  - unfold FastApi.delete_resource.
    destruct (delete nc_client remote_path) as [[|]|e]; simpl; tauto.
Qed.

(* ================================================================== *)
(** * The end of a URL, and entries that are skipped *)
(* ================================================================== *)

Lemma split_singleton (c : ascii) (s x : string) :
  split s c = [x] -> x = s.
Proof.
  intros H. rewrite <- (join_split c s), H. reflexivity.
Qed.

(** A string ends in the separator exactly when it is not empty and its
    last piece is. *)
Lemma endswith_last_split (c : ascii) (s : string) :
  endswith s c = is_empty (List.last (split s c) "") && negb (is_empty s).
Proof.
  induction s as [|a s IH]; [reflexivity|].
  destruct s as [|b s].
  - simpl. destruct (Ascii.eqb a c); reflexivity.
  - change (endswith (String a (String b s)) c) with (endswith (String b s) c).
    rewrite IH. cbn [is_empty negb]. rewrite !andb_true_r.
    pose proof (split_not_nil c (String b s)) as Hn.
    destruct (Ascii.eqb a c) eqn:Hac.
    + apply Ascii.eqb_eq in Hac; subst a.
      rewrite (split_cons_sep c (String b s)).
      destruct (split (String b s) c); [congruence | reflexivity].
    + rewrite (split_cons_other c a (String b s) Hac).
      destruct (split (String b s) c) as [|x [|y ys]] eqn:E; [congruence | |].
      * apply split_singleton in E. subst x. reflexivity.
      * reflexivity.
Qed.

Lemma last_map_quote (segments : list string) :
  List.last (map (fun part => quote part "") segments) ""
  = quote (List.last segments "") "".
Proof.
  induction segments as [|seg [|seg' rest] IH]; [reflexivity | reflexivity |].
  exact IH.
Qed.

Lemma is_empty_quote (s : string) : is_empty (quote s "") = is_empty s.
Proof.
  destruct s as [|b s]; [reflexivity|].
  simpl quote. unfold quoter, percent_escape.
  destruct (contains _ALWAYS_SAFE b || contains "" b); reflexivity.
Qed.

(** X17: the URL of a path ends in a slash exactly when nothing is left of
    the path once its slashes are stripped (the root, or the empty path). *)
Theorem build_url_ends_in_slash_iff_root (self : NextcloudClient)
        (remote_path : string) :
  endswith (_build_url self remote_path) "/" = is_empty (strip remote_path "/").
Proof.
  rewrite _build_url_unfold.
  set (segments := split (strip remote_path "/") "/").
  set (encoded := map (fun part => quote part "") segments).
  replace (base_url self ++ dav_base_path self ++ "/" ++ join "/" encoded)
    with ((base_url self ++ dav_base_path self) ++ String "/" (join "/" encoded))
    by (now rewrite append_assoc).
  rewrite endswith_last_split, last_split_app_sep.
  assert (Hnonempty :
            is_empty ((base_url self ++ dav_base_path self)
                        ++ String "/" (join "/" encoded)) = false)
    by (destruct (base_url self ++ dav_base_path self); reflexivity).
  rewrite Hnonempty. cbn [negb]. rewrite andb_true_r.
  assert (Hsplit : split (join "/" encoded) "/" = encoded).
  { apply split_join.
    - unfold encoded, segments.
      pose proof (split_not_nil "/" (strip remote_path "/")) as Hn.
      destruct (split (strip remote_path "/") "/"); [congruence | discriminate].
    - unfold encoded. apply Forall_map.
      apply Forall_forall. intros seg _. apply quote_no_slash. }
  rewrite Hsplit. unfold encoded. rewrite last_map_quote, is_empty_quote.
  unfold segments.
  destruct (strip remote_path "/") as [|a s] eqn:E; [reflexivity|].
  cbn [is_empty]. apply is_empty_false.
  rewrite <- E, <- (rstrip_strip "/" remote_path).
  apply last_split_rstrip_nonempty. rewrite rstrip_strip, E. discriminate.
Qed.

(** X18: a response element without [d:href], without [d:propstat] or with
    an empty [d:href] neither stops a listing nor adds to it: the result is
    that of the same body without the element. *)
Theorem incomplete_response_is_skipped (self : NextcloudClient) (remote_path : string)
        (response : Response) (root_tag : string) (root_text : option string)
        (before after : list Element) (resp_element : Element) :
  passed_over resp_element ->
  session self {| method := "PROPFIND";
                  url := _build_url self remote_path;
                  headers := [("Depth", "1")];
                  data := None;
                  auth := basic_auth self |} = Return response ->
  status_code response = 207%Z ->
  content response
  = WellFormed (Elem root_tag root_text (before ++ resp_element :: after)) ->
  list_directory self remote_path
  = Return (collect_items (base_href_path_check self remote_path)
              (findall (Elem root_tag root_text (before ++ after)) (DAV "response"))
              []).
Proof.
  intros Hskip Hsend Hst Hbody.
  rewrite (list_directory_207 _ _ _ _ Hsend Hst Hbody).
  f_equal. unfold findall. cbn [children].
  rewrite !filter_app, !collect_items_app. f_equal.
  cbn [filter].
  destruct (String.eqb (tag resp_element) (DAV "response")); [|reflexivity].
  change (resp_element :: filter (fun child => String.eqb (tag child) (DAV "response")) after)
    with ([resp_element]
            ++ filter (fun child => String.eqb (tag child) (DAV "response")) after)%list.
  rewrite collect_items_app.
  assert (Hnone : collect_items (base_href_path_check self remote_path)
                                [resp_element] [] = []).
  { cbn [collect_items].
    destruct Hskip as [Hh | [Hp | [href_element [Hh Ht]]]].
    - now rewrite Hh.
    - rewrite Hp. now destruct (find resp_element (DAV "href")).
    - rewrite Hh. destruct (find resp_element (DAV "propstat")); [|reflexivity].
      now rewrite Ht. }
  now rewrite Hnone.
Qed.

Lemma incomplete_response_is_skipped_witness :
  list_directory
    (alice (answering 207
       (WellFormed (Elem (DAV "multistatus") None
          [ Elem (DAV "response") None [ Elem (DAV "href") None [];
                                         Elem (DAV "propstat") None [] ];
            response_with "/remote.php/dav/files/alice/docs/a.txt" [] ]))))
    "/docs"
  = Return [ {| href := "/remote.php/dav/files/alice/docs/a.txt";
                name := "a.txt";
                is_dir := false |} ].
Proof.
  apply (incomplete_response_is_skipped
           (alice (answering 207
              (WellFormed (Elem (DAV "multistatus") None
                 [ Elem (DAV "response") None [ Elem (DAV "href") None [];
                                                Elem (DAV "propstat") None [] ];
                   response_with "/remote.php/dav/files/alice/docs/a.txt" [] ]))))
           "/docs"
           {| status_code := 207;
              content := WellFormed (Elem (DAV "multistatus") None
                 [ Elem (DAV "response") None [ Elem (DAV "href") None [];
                                                Elem (DAV "propstat") None [] ];
                   response_with "/remote.php/dav/files/alice/docs/a.txt" [] ]) |}
           (DAV "multistatus") None []
           [ response_with "/remote.php/dav/files/alice/docs/a.txt" [] ]
           (Elem (DAV "response") None [ Elem (DAV "href") None [];
                                         Elem (DAV "propstat") None [] ]));
    try reflexivity.
  right; right. eexists. split; reflexivity.
Defined.

(* ================================================================== *)
(** * Where items come from, and a transport that is down *)
(* ================================================================== *)

Lemma collect_items_made_from (check : string) (source : list Element) :
  forall responses items,
    (forall e, In e responses -> In e source) ->
    Forall (fun it => exists e, In e source /\ made_from it e) items ->
    Forall (fun it => exists e, In e source /\ made_from it e)
           (collect_items check responses items).
Proof.
  induction responses as [|resp_element rest IH]; intros items Hsub Hitems.
  - exact Hitems.
  - assert (Hrest : forall e, In e rest -> In e source)
      by (intros e He; apply Hsub; now right).
    cbn [collect_items].
    destruct (find resp_element (DAV "href")) as [href_element|] eqn:Hh;
      [|now apply IH].
    destruct (find resp_element (DAV "propstat")) as [propstat_element|] eqn:Hp;
      [|now apply IH].
    destruct (text href_element) as [href_text|] eqn:Ht; [|now apply IH].
    cbn [unquote_text].
    destruct (String.eqb (rstrip (unquote href_text) "/") check); [now apply IH|].
    apply IH; [exact Hrest|].
    apply Forall_app. split; [exact Hitems|].
    constructor; [|constructor].
    exists resp_element. split; [apply Hsub; now left|].
    exists href_element, href_text, propstat_element.
    repeat split; assumption.
Qed.

(** X19: nothing in a listing is made up.  Every item of the result comes
    from a [d:response] child of the root of the body: its href is the
    decoded text of that element's [d:href], its name the last piece of it,
    and [is_dir] is read from that element's [d:propstat]. *)
Theorem listed_items_come_from_the_body (self : NextcloudClient)
        (remote_path : string) (response : Response) (root : Element)
        (items : list Item) :
  session self {| method := "PROPFIND";
                  url := _build_url self remote_path;
                  headers := [("Depth", "1")];
                  data := None;
                  auth := basic_auth self |} = Return response ->
  content response = WellFormed root ->
  list_directory self remote_path = Return items ->
  Forall (fun it =>
            exists resp_element,
              In resp_element (children root)
              /\ tag resp_element = DAV "response"
              /\ made_from it resp_element)
         items.
Proof.
  intros Hsend Hbody. unfold list_directory. rewrite Hsend. simpl bind.
  destruct (status_code response =? 404)%Z; [intros [= <-]; constructor|].
  destruct (_handle_response response [207%Z]) as [[]|e]; simpl; [|discriminate].
  rewrite Hbody. simpl. intros [= <-].
  pose proof (collect_items_made_from
                (base_href_path_check self remote_path)
                (findall root (DAV "response"))
                (findall root (DAV "response")) []
                (fun e He => He) (Forall_nil _)) as Hall.
  apply Forall_forall. intros it Hin.
  destruct (proj1 (Forall_forall _ _) Hall it Hin) as [e [He Hmade]].
  unfold findall in He. apply filter_In in He as [He Htag].
  exists e. split; [exact He|]. split; [now apply String.eqb_eq | exact Hmade].
Qed.

Lemma listed_items_come_from_the_body_witness :
  Forall (fun it =>
            exists resp_element,
              In resp_element (children docs_listing)
              /\ tag resp_element = DAV "response"
              /\ made_from it resp_element)
         docs_items.
Proof.
  apply (listed_items_come_from_the_body
           (alice (answering 207 (WellFormed docs_listing))) "/docs"
           {| status_code := 207; content := WellFormed docs_listing |}
           docs_listing docs_items); reflexivity.
Defined.

(** X20: when the transport fails every request with an exception, the four
    client methods raise that exception (for [upload_file], when the local
    file exists), and the four endpoints reply 500 with its text (for the
    upload endpoint, when the temporary file can be created; should
    [os.remove] then raise in the [finally] clause, its [OSError] leaves the
    endpoint instead). *)
Theorem transport_down (self : NextcloudClient) (e : Exception)
        (guess_type : string -> option string) (str : FastApi.Caught -> string)
        (open_fails other_entry remove_fails : string -> bool) (fs : FastApi.Files)
        (remote_path local_file_path file_data filename contents : string) :
  session self = failing e ->
  fs local_file_path = Some file_data ->
  open_fails ("temp_" ++ filename) = false ->
  (create_directory self remote_path = Raise e
   /\ upload_file fs guess_type self local_file_path remote_path = Raise e
   /\ list_directory self remote_path = Raise e
   /\ delete self remote_path = Raise e)
  /\ (let reply := FastApi.HTTPException 500 (str (FastApi.ClientException e)) in
      FastApi.create_directory self str remote_path = reply
      /\ fst (FastApi.upload_file self guess_type str open_fails other_entry
                                  remove_fails fs remote_path filename contents)
         = (if remove_fails ("temp_" ++ filename)
            then FastApi.Unhandled (FastApi.OSError ("temp_" ++ filename))
            else reply)
      /\ FastApi.list_directory self str remote_path = reply
      /\ FastApi.delete_resource self str remote_path = reply).
Proof.
  intros Hdown Hfile Hopen.
  assert (Hmkdir : create_directory self remote_path = Raise e)
    by (unfold create_directory; now rewrite Hdown).
  assert (Hlist : list_directory self remote_path = Raise e)
    by (unfold list_directory; now rewrite Hdown).
  assert (Hdelete : delete self remote_path = Raise e)
    by (unfold delete; now rewrite Hdown).
  assert (Hupload : forall files local,
             files local <> None ->
             upload_file files guess_type self local remote_path = Raise e).
  { intros files local Hsome. unfold upload_file.
    destruct (files local); [|congruence]. now rewrite Hdown. }
  split.
  - repeat split; try assumption. apply Hupload. congruence.
  - cbv zeta. split; [|split; [|split]].
    + unfold FastApi.create_directory. now rewrite Hmkdir.
    + unfold FastApi.upload_file, FastApi.upload_file_try. rewrite Hopen.
      rewrite Hupload by (rewrite write_lookup; discriminate).
      unfold FastApi.exists_, FastApi.remove. rewrite write_lookup, orb_true_r.
      now destruct (remove_fails ("temp_" ++ filename)).
    + unfold FastApi.list_directory. now rewrite Hlist.
    + unfold FastApi.delete_resource. now rewrite Hdelete.
Qed.

Lemma transport_down_witness :
  delete (alice (failing (ConnectionError "refused"))) "/docs" 
  = Raise (ConnectionError "refused")
  /\ FastApi.list_directory (alice (failing (ConnectionError "refused"))) kind_of "/docs"
     = FastApi.HTTPException 500 "Exception".
Proof.
  destruct (transport_down (alice (failing (ConnectionError "refused")))
              (ConnectionError "refused") by_extension kind_of
              (fun _ => false) (fun _ => false) (fun _ => false)
              one_local_file "/docs" "report.pdf" "%PDF-1.7" "a.txt" "hello"
              eq_refl eq_refl eq_refl) as [[_ [_ [_ Hdelete]]] [_ [_ [Hlist _]]]].
  split; [exact Hdelete | exact Hlist].
Defined.
